(** * pymupdf-api: page selection, classification and extraction

    A shallow embedding of [app.py]: the page-range parser [parse_pages], the
    native/scanned heuristic [is_native_pdf], the two extractors
    [extract_text] and [extract_blocks], and the two request handlers
    [extract] and [info], with the properties of the specification stated
    and proved (or refuted) over them.

    Conventions of the embedding.
    - A Python [str] is a [string]; a character is read as the code point of
      the same number (the Latin-1 range 0..255).
    - A Python [int] is a [Z].
    - A Python [float] is a [Binary64.float]: the finite non-negative
      binary64 numbers, with the correctly rounded quotient of two integers
      that [int / int] computes.
    - A raised exception is the [Raise] branch of [result].
    - The PDF engine is not part of the program: an opened document is a
      list of pages as the engine reports them, and [fitz.open] is a
      function the handlers take as an argument. *)

From Stdlib Require Import ZArith QArith Lia Bool List String Ascii.
From stdpp Require Import base decidable option list sorting gmap sets strings.

#[local] Set Warnings "-clear-no-such-hyp".
Local Open Scope string_scope.
Local Open Scope Z_scope.

(** ** Exceptions *)

Inductive exn : Type :=
  | ValueError_int (literal : string)
      (** [int(literal)]: invalid literal for int() with base 10 *)
  | ValueError_digits (digits : nat)
      (** [int(literal)]: exceeds the limit (4300 digits) for integer string
          conversion: value has [digits] digits *)
  | ValueError_unpack (expected got : nat)
      (** [a, b = xs] with [len(xs) <> 2] *)
  | OverflowError_division
      (** integer division result too large for a float *)
  | ZeroDivisionError
  | IndexError_page (page_num : Z)
      (** [doc[page_num]]: page not in document *)
  | IndexError_list
      (** list index out of range *)
  | EngineError (message : string)
      (** whatever [fitz.open] raises on bytes that are no PDF *)
  | DecodeError (message : string).
      (** whatever [base64.b64decode] raises *)

Inductive result (A : Type) : Type :=
  | Ok (a : A)
  | Raise (e : exn).
Arguments Ok {A} a.
Arguments Raise {A} e.

Definition bind {A B} (m : result A) (k : A -> result B) : result B :=
  match m with
  | Ok a => k a
  | Raise e => Raise e
  end.

Notation "'let*' x ':=' m 'in' k" := (bind m (fun x => k))
  (at level 10, x pattern, m at level 100, k at level 200).

(** A [for] loop whose body may raise: the first exception ends the loop. *)
Fixpoint for_each {A S} (body : S -> A -> result S) (s : S) (xs : list A)
  : result S :=
  match xs with
  | [] => Ok s
  | x :: xs' => let* s' := body s x in for_each body s' xs'
  end.

(** ** Built-in string operations *)

Module PyStr.

Definition code (c : ascii) : N := N_of_ascii c.

(** [str.isspace] on the code points below 256: TAB..CR, FS..US, SPACE,
    NEL and NBSP. *)
Definition is_space (c : ascii) : bool :=
  let n := code c in
  ((9 <=? n) && (n <=? 13) || (28 <=? n) && (n <=? 32)
   || (n =? 133) || (n =? 160))%N.

(** The white space [int()] skips: the ASCII [isspace] set, and the
    non-ASCII spaces, which it first rewrites to a blank. *)
Definition is_int_space (c : ascii) : bool :=
  let n := code c in
  ((9 <=? n) && (n <=? 13) || (n =? 32) || (n =? 133) || (n =? 160))%N.

Fixpoint lstrip_with (sp : ascii -> bool) (s : string) : string :=
  match s with
  | EmptyString => EmptyString
  | String c r => if sp c then lstrip_with sp r else s
  end.

Fixpoint rstrip_with (sp : ascii -> bool) (s : string) : string :=
  match s with
  | EmptyString => EmptyString
  | String c r =>
      match rstrip_with sp r with
      | EmptyString => if sp c then EmptyString else String c EmptyString
      | r' => String c r'
      end
  end.

Definition strip_with (sp : ascii -> bool) (s : string) : string :=
  rstrip_with sp (lstrip_with sp s).

(** [s.strip()] *)
Definition strip (s : string) : string := strip_with is_space s.

(** [len(s)] *)
Definition len (s : string) : Z := Z.of_nat (String.length s).

(** [c in s] for a one-character [c] *)
Fixpoint contains (c : ascii) (s : string) : bool :=
  match s with
  | EmptyString => false
  | String a r => if Ascii.eqb a c then true else contains c r
  end.

(** [s.split(c)] for a one-character separator: never the empty list. *)
Fixpoint split (c : ascii) (s : string) : list string :=
  match s with
  | EmptyString => [EmptyString]
  | String a r =>
      if Ascii.eqb a c then EmptyString :: split c r
      else match split c r with
           | [] => [String a EmptyString]
           | h :: t => String a h :: t
           end
  end.

(** [sep.join(xs)] *)
Fixpoint join (sep : string) (xs : list string) : string :=
  match xs with
  | [] => EmptyString
  | [x] => x
  | x :: rest => x ++ sep ++ join sep rest
  end.

Definition digit_value (c : ascii) : option Z :=
  let n := code c in
  if ((48 <=? n) && (n <=? 57))%N then Some (Z.of_N n - 48) else None.

(** The digits at the head of a base-10 literal, one underscore allowed
    between two digits: the number they write, how many they are and what
    follows them; nothing for an underscore out of place.  [prev_us]
    records that the previous character was an underscore. *)
Fixpoint digits_from (acc : Z) (digits : nat) (prev_us : bool) (s : string)
  : option (Z * nat * string) :=
  match s with
  | EmptyString => if prev_us then None else Some (acc, digits, EmptyString)
  | String c r =>
      match digit_value c with
      | Some d => digits_from (10 * acc + d) (S digits) false r
      | None =>
          if Ascii.eqb c "_" then
            if prev_us then None else digits_from acc digits true r
          else
            if prev_us then None else Some (acc, digits, s)
      end
  end.

(** The sign of a literal, and the literal without it. *)
Definition sign_of (literal : string) : bool * string :=
  match literal with
  | String "+" r => (false, r)
  | String "-" r => (true, r)
  | _ => (false, literal)
  end.

Definition leading_underscore (s : string) : bool :=
  match s with
  | String c _ => Ascii.eqb c "_"
  | EmptyString => false
  end.

(** The most digits [int()] converts, [sys.get_int_max_str_digits()]: 4300
    as the interpreter starts, and the program does not change it. *)
Definition int_max_str_digits : nat := 4300.

(** [int(s)]: optional surrounding white space, optional sign, digits.  The
    digits are read first; more of them than the limit are refused before
    what follows them is looked at. *)
Definition int (s : string) : result Z :=
  let literal := strip_with is_int_space s in
  let (negative, number) := sign_of literal in
  if leading_underscore number then Raise (ValueError_int s)
  else
    match digits_from 0 0 false number with
    | None => Raise (ValueError_int s)
    | Some (z, digits, rest) =>
        if (int_max_str_digits <? digits)%nat
        then Raise (ValueError_digits digits)
        else
          match digits, rest with
          | S _, EmptyString => Ok (if negative then - z else z)
          | _, _ => Raise (ValueError_int s)
          end
    end.

(** [str(n)] for a natural number, by digits from the least significant. *)
Definition digit_char (d : N) : ascii := ascii_of_N (48 + d).

Fixpoint of_pos_fuel (fuel : nat) (n : N) (acc : string) : string :=
  match fuel with
  | O => acc
  | S fuel' =>
      let acc' := String (digit_char (n mod 10)) acc in
      if (n / 10 =? 0)%N then acc' else of_pos_fuel fuel' (n / 10) acc'
  end.

Definition of_N (n : N) : string :=
  of_pos_fuel (S (N.to_nat (N.log2 n))) n EmptyString.

End PyStr.

(** ** Floats: the binary64 numbers and [int / int] *)

Module Binary64.

(** Every finite binary64 number is a whole multiple of [2^-1074], the
    smallest subnormal.  A float is kept as its sign and that multiple,
    [units]: an integer of at most 53 significant bits, below [2^2098]
    (the multiple of [2^1024], the first power of two out of range). *)
Definition unit_exponent : Z := 1074.
Definition overflow_units : Z := 2 ^ 2098.

Record float : Type := Float { negative : bool; units : Z }.

Definition signed_units (x : float) : Z :=
  if negative x then - units x else units x.

(** [x > y], [x < y] on floats (and [-0.0 == 0.0]). *)
Definition gt (x y : float) : bool := signed_units y <? signed_units x.

(** A Python [int] that a float holds exactly. *)
Definition of_int (z : Z) : float :=
  Float (z <? 0) (Z.abs z * 2 ^ unit_exponent).

(** Round [num / den] to the nearest integer, ties to the even one. *)
Definition round_half_even (num den : Z) : Z :=
  let q := num / den in
  let r := num mod den in
  if 2 * r <? den then q
  else if den <? 2 * r then q + 1
  else if Z.even q then q else q + 1.

(** Round [num / den >= 0] to the nearest integer of at most 53
    significant bits: the [shift] low bits of the result are zero. *)
Definition round53 (num den : Z) : Z :=
  let shift := Z.max 0 (Z.log2 (num / den) - 52) in
  round_half_even num (den * 2 ^ shift) * 2 ^ shift.

(** The binary64 number nearest to [a / b], for [a >= 0] and [b > 0], in
    units of [2^-1074]. *)
Definition nearest_units (a b : Z) : Z := round53 (a * 2 ^ unit_exponent) b.

(** [a / b] on Python integers: the correctly rounded quotient. *)
Definition truediv (a b : Z) : result float :=
  if b =? 0 then Raise ZeroDivisionError
  else
    let u := nearest_units (Z.abs a) (Z.abs b) in
    if overflow_units <=? u then Raise OverflowError_division
    else Ok (Float (xorb (a <? 0) (b <? 0)) u).

(** A decimal literal [n.d] of the source, read as the binary64 number
    nearest to [num / den]. *)
Definition literal (num den : Z) : float :=
  Float false (nearest_units num den).

(** The significand and exponent of a float: [units = m * 2^(e + 1074)]
    with [m < 2^53]. *)
Definition exponent (x : float) : Z :=
  Z.max 0 (Z.log2 (units x) - 52) - unit_exponent.
Definition significand (x : float) : Z :=
  units x / 2 ^ (exponent x + unit_exponent).

(** The number of low bits [round53] clears, for a quotient [q]. *)
Definition shift_of (q : Z) : Z := Z.max 0 (Z.log2 q - 52).

(** The float after [0.8], after [0.3], after [100.0] and after [50.0]. *)
Definition after_0_8 : Z := 7205759403792795 * 2 ^ 1021.
Definition after_0_3 : Z := 5404319552844596 * 2 ^ 1020.
Definition after_100 : Z := (100 * 2 ^ 46 + 1) * 2 ^ 1028.
Definition after_50 : Z := (50 * 2 ^ 47 + 1) * 2 ^ 1027.

(** Up to this many pages the rounded quotients of the classifier compare
    with its thresholds as the exact quotients do. *)
Definition exact_range : Z := 2 ^ 46.

End Binary64.

Example lit08_bits :
  let x := Binary64.literal 8 10 in
  Binary64.significand x = 7205759403792794 /\ Binary64.exponent x = -53.
Proof. vm_compute. split; reflexivity. Qed.
Example lit03_bits :
  let x := Binary64.literal 3 10 in
  Binary64.significand x = 5404319552844595 /\ Binary64.exponent x = -54.
Proof. vm_compute. split; reflexivity. Qed.
Example third_bits :
  match Binary64.truediv 1 3 with
  | Ok x => Binary64.significand x = 6004799503160661 /\ Binary64.exponent x = -54
  | Raise _ => False
  end.
Proof. vm_compute. split; reflexivity. Qed.
Example truediv_4_5 : Binary64.truediv 4 5 = Ok (Binary64.literal 8 10).
Proof. vm_compute. reflexivity. Qed.
Example truediv_one : Binary64.truediv 7 7 = Ok (Binary64.of_int 1).
Proof. vm_compute. reflexivity. Qed.

(** ** Page selection: [parse_pages] *)

(** [a, b = xs] *)
Definition unpack2 {A} (xs : list A) : result (A * A) :=
  match xs with
  | [a; b] => Ok (a, b)
  | _ => Raise (ValueError_unpack 2 (length xs))
  end.

(** [range(start, stop)] *)
Definition py_range (start stop : Z) : list Z := seqZ start (stop - start).

(** [sorted(pages)] for a set of integers *)
Definition py_sorted (pages : gset Z) : list Z :=
  merge_sort Z.le (elements pages).

(** The body of the loop of [parse_pages], for one [part]. *)
Definition parse_part (total_pages : Z) (pages : gset Z) (part : string)
  : result (gset Z) :=
  let part := PyStr.strip part in
  if PyStr.contains "-" part then
    let* (start, end_) := unpack2 (PyStr.split "-" part) in
    let* start_int := PyStr.int start in
    let start := Z.max 0 (start_int - 1) in
    let* end_int := PyStr.int end_ in
    let end_ := Z.min total_pages end_int in
    Ok (pages ∪ list_to_set (py_range start end_))
  else
    let* part_int := PyStr.int part in
    let page_num := part_int - 1 in
    if (0 <=? page_num) && (page_num <? total_pages)
    then Ok (pages ∪ {[ page_num ]})
    else Ok pages.

Definition parse_pages (pages_param : string) (total_pages : Z)
  : result (list Z) :=
  let parts := PyStr.split "," pages_param in
  let* pages := for_each (parse_part total_pages) ∅ parts in
  Ok (py_sorted pages).

(** The tokens of a page-selection expression, as the specification has
    them: a numeral is a string [int()] reads and that has no ["-"]; a part
    is a single page number, or a range [a-b] of two numerals. *)
Definition numeral (s : string) (k : Z) : Prop :=
  PyStr.contains "-" s = false /\ PyStr.int s = Ok k.

Inductive token (part : string) : Prop :=
  | token_single (k : Z) :
      numeral (PyStr.strip part) k -> token part
  | token_range (sa sb : string) (a b : Z) :
      PyStr.strip part = sa ++ String "-" sb ->
      numeral sa a -> numeral sb b -> token part.

Definition well_formed (expression : string) : Prop :=
  Forall token (PyStr.split "," expression).

(** The pages one part denotes: what the loop body adds to the empty set. *)
Definition part_pages (total_pages : Z) (part : string) : result (gset Z) :=
  parse_part total_pages ∅ part.

(** ** The document, as the engine reports it *)

Abbreviation float := Binary64.float.

(** One tuple of [page.get_text("blocks")]:
    [(x0, y0, x1, y1, text, block_no, block_type)]. *)
Record Block : Type := {
  block_x0 : float;
  block_y0 : float;
  block_x1 : float;
  block_y1 : float;
  block_text : string;
  block_no : Z;
  block_type : Z
}.

Record Page : Type := {
  get_text : string;            (* page.get_text() *)
  get_text_blocks : list Block; (* page.get_text("blocks") *)
  rect_width : float;           (* page.rect.width *)
  rect_height : float;          (* page.rect.height *)
  get_images : list Z           (* page.get_images(), by xref *)
}.

Record Document : Type := {
  doc_pages : list Page;
  doc_metadata : gmap string string
}.

(** [len(doc)] *)
Definition doc_len (doc : Document) : Z := Z.of_nat (length (doc_pages doc)).

(** [doc[page_num]], for the page numbers the program uses: those of
    [range(len(doc))]; any other raises. *)
Definition doc_getitem (doc : Document) (page_num : Z) : result Page :=
  if (0 <=? page_num) && (page_num <? doc_len doc) then
    match doc_pages doc !! Z.to_nat page_num with
    | Some page => Ok page
    | None => Raise (IndexError_page page_num)
    end
  else Raise (IndexError_page page_num).

(** ** Classification: [is_native_pdf] *)

(** The counters after the [for page in doc] loop. *)
Definition count_page (acc : Z * Z) (page : Page) : Z * Z :=
  let '(pages_with_text, total_text_length) := acc in
  let text := PyStr.strip (get_text page) in
  let pages_with_text :=
    if 50 <? PyStr.len text then pages_with_text + 1 else pages_with_text in
  (pages_with_text, total_text_length + PyStr.len text).

(** The score of the empty document is the integer [0] in the source; as a
    number it is [0.0]. *)
Definition is_native_pdf (doc : Document) : result (float * string) :=
  let total_pages := doc_len doc in
  let '(pages_with_text, total_text_length) :=
    fold_left count_page (doc_pages doc) (0, 0) in
  if total_pages =? 0 then Ok (Binary64.of_int 0, "empty")
  else
    let* text_ratio := Binary64.truediv pages_with_text total_pages in
    let* avg_text_per_page := Binary64.truediv total_text_length total_pages in
    if Binary64.gt text_ratio (Binary64.literal 8 10)
       && Binary64.gt avg_text_per_page (Binary64.of_int 100)
    then Ok (Binary64.literal 10 10, "native")
    else if Binary64.gt text_ratio (Binary64.literal 3 10)
            || Binary64.gt avg_text_per_page (Binary64.of_int 50)
    then Ok (text_ratio, "mixed")
    else Ok (Binary64.literal 0 10, "scanned").

(** The decision table as the specification words it, over exact
    quotients; the score of a float is the binary64 number nearest to it. *)
Module Spec.

Definition trimmedLength (page : Page) : Z :=
  PyStr.len (PyStr.strip (get_text page)).

Definition hasText (page : Page) : bool := 50 <? trimmedLength page.

Definition totalPages (doc : Document) : Z := doc_len doc.

Definition pagesWithText (doc : Document) : Z :=
  Z.of_nat (length (List.filter hasText (doc_pages doc))).

Definition totalTextLength (doc : Document) : Z :=
  fold_right Z.add 0 (List.map trimmedLength (doc_pages doc)).

Definition textRatio (doc : Document) : Q :=
  Qmake (pagesWithText doc) (Z.to_pos (totalPages doc)).

Definition avgTextPerPage (doc : Document) : Q :=
  Qmake (totalTextLength doc) (Z.to_pos (totalPages doc)).

(** [x > y] *)
Definition exceeds (x y : Q) : bool :=
  if Qlt_le_dec y x then true else false.

Definition score_of (x : Q) : float :=
  Binary64.Float false (Binary64.nearest_units (Qnum x) (QDen x)).

Definition classify (doc : Document) : float * string :=
  if totalPages doc =? 0 then (Binary64.of_int 0, "empty")
  else if exceeds (textRatio doc) (8 # 10)
          && exceeds (avgTextPerPage doc) (100 # 1)
  then (Binary64.of_int 1, "native")
  else if exceeds (textRatio doc) (3 # 10)
          || exceeds (avgTextPerPage doc) (50 # 1)
  then (score_of (textRatio doc), "mixed")
  else (Binary64.of_int 0, "scanned").

End Spec.

(** The largest length of a Python object: [sys.maxsize]. *)
Definition sys_maxsize : Z := 2 ^ 63 - 1.

(** ** Extraction: [extract_text] and [extract_blocks] *)

Record BBox : Type := { x0 : float; y0 : float; x1 : float; y1 : float }.

(** An entry of a page's ["blocks"]: [{"text": .., "bbox": {..}}]. *)
Record BlockOut : Type := { out_text : string; bbox : BBox }.

(** An entry of ["pages_detail"]: [{"page": .., "blocks": [..]}]. *)
Record PageDetail : Type := { detail_page : Z; detail_blocks : list BlockOut }.

(** The dict both extractors return; [pages_detail] is [None] when the key
    is absent, which is what [result.get("pages_detail")] then yields. *)
Record Extraction : Type := {
  result_text : string;
  result_pages_detail : option (list PageDetail)
}.

Definition newline : string := String (ascii_of_N 10) EmptyString.
Definition blank_line : string := newline ++ newline.

Definition extract_text (doc : Document) (pages : list Z) : result Extraction :=
  let* texts :=
    for_each (fun texts page_num =>
                let* page := doc_getitem doc page_num in
                Ok (texts ++ [get_text page])%list)
             [] pages in
  Ok {| result_text := PyStr.join blank_line texts;
        result_pages_detail := None |}.

(** The inner loop of [extract_blocks], for one block: the two lists
    [page_text] and [page_blocks] grow together. *)
Definition collect_block (acc : list string * list BlockOut) (block : Block)
  : list string * list BlockOut :=
  let '(page_text, page_blocks) := acc in
  if block_type block =? 0 then
    let text := PyStr.strip (block_text block) in
    if negb (String.eqb text EmptyString) then
      ((page_text ++ [text])%list,
       (page_blocks ++ [ {| out_text := text;
                            bbox := {| x0 := block_x0 block;
                                       y0 := block_y0 block;
                                       x1 := block_x1 block;
                                       y1 := block_y1 block |} |} ])%list)
    else acc
  else acc.

Definition extract_blocks (doc : Document) (pages : list Z) : result Extraction :=
  let* (all_text, pages_detail) :=
    for_each (fun '(all_text, pages_detail) page_num =>
                let* page := doc_getitem doc page_num in
                let blocks := get_text_blocks page in
                let '(page_text, page_blocks) :=
                  fold_left collect_block blocks ([], []) in
                Ok ((all_text ++ [PyStr.join newline page_text])%list,
                    (pages_detail ++ [ {| detail_page := page_num + 1;
                                          detail_blocks := page_blocks |} ])%list))
             ([], []) pages in
  Ok {| result_text := PyStr.join blank_line all_text;
        result_pages_detail := Some pages_detail |}.

(** What the extractors are to return, in the words of the specification. *)
Module ExtractSpec.

(** A page index of the document. *)
Definition in_document (doc : Document) (page_num : Z) : Prop :=
  0 <= page_num < doc_len doc.

(** [page] is the page of index [page_num]. *)
Definition page_at (doc : Document) (page_num : Z) (page : Page) : Prop :=
  doc_pages doc !! Z.to_nat page_num = Some page.

(** A block is kept when its kind is text and its trimmed text is not
    empty. *)
Definition kept (block : Block) : bool :=
  (block_type block =? 0)
  && negb (String.eqb (PyStr.strip (block_text block)) EmptyString).

(** A kept block, as emitted: its trimmed text and its own box. *)
Definition emitted (block : Block) : BlockOut :=
  {| out_text := PyStr.strip (block_text block);
     bbox := {| x0 := block_x0 block; y0 := block_y0 block;
                x1 := block_x1 block; y1 := block_y1 block |} |}.

Definition kept_blocks (page : Page) : list BlockOut :=
  List.map emitted (List.filter kept (get_text_blocks page)).

End ExtractSpec.

(** ** The service: requests, responses and the two handlers *)

(** What a handler does to the engine's resource: a document handle is
    opened by [fitz.open] and released by [doc.close()]. *)
Inductive event : Type :=
  | DocOpened
  | DocClosed.

(** A computation of a handler: it may raise, and it extends the log of
    events, which an exception leaves as it is. *)
Definition io (A : Type) : Type := list event -> result A * list event.

Definition io_ret {A} (a : A) : io A := fun log => (Ok a, log).

Definition io_lift {A} (r : result A) : io A := fun log => (r, log).

Definition io_bind {A B} (m : io A) (k : A -> io B) : io B :=
  fun log =>
    match m log with
    | (Ok a, log') => k a log'
    | (Raise e, log') => (Raise e, log')
    end.

Definition emit (e : event) : io unit := fun log => (Ok tt, (log ++ [e])%list).

Notation "'do*' x ':=' m 'in' k" := (io_bind m (fun x => k))
  (at level 10, x pattern, m at level 100, k at level 200).

(** [try: body  except Exception as e: handler(e)] *)
Definition try_except {A} (body : io A) (handler : exn -> A)
  : list event -> A * list event :=
  fun log =>
    match body log with
    | (Ok a, log') => (a, log')
    | (Raise e, log') => (handler e, log')
    end.

(** The parts of a Flask request the handlers read.  [req_json] is the
    body of a JSON request that is an object of strings; a body of another
    shape (null, a number, a list, a value that is no string) and one that
    does not parse are not requests of this model. *)
Record Request : Type := {
  req_files : gmap string string;  (* request.files, each file by its bytes *)
  req_is_json : bool;              (* request.is_json *)
  req_json : gmap string string;   (* request.json, an object of strings *)
  req_form : gmap string string;   (* request.form *)
  req_args : gmap string string    (* request.args *)
}.

(** An entry of ["pages"] in the answer of [/info]. *)
Record PageInfo : Type := {
  info_page : Z;
  info_width : float;
  info_height : float;
  info_has_text : bool;
  info_has_images : bool
}.

(** The JSON bodies of the answers. *)
Inductive Body : Type :=
  | ExtractBody (text : string) (pages_count pages_extracted characters_count : Z)
                (pdf_type : string) (native_score : float) (needs_ocr : bool)
                (pages_detail : option (list PageDetail))
      (** [{"success": True, "text": .., ...}] of [/extract] *)
  | InfoBody (title author subject creator producer
              creation_date modification_date : string)
             (pages_count : Z) (pages : list PageInfo)
             (pdf_type : string) (native_score : float) (needs_ocr : bool)
      (** [{"success": True, "metadata": .., ...}] of [/info] *)
  | FailureBody (error : exn)
      (** [{"success": False, "error": str(e)}] *)
  | MissingFileBody (with_usage : bool).
      (** [{"error": "Aucun fichier PDF fourni"}], with ["usage"] on [/extract] *)

Record Response : Type := { status : Z; body : Body }.

(** [a or b] on the values of [dict.get]: [None] and [""] are false. *)
Definition py_or (a b : option string) : option string :=
  match a with
  | Some s => if String.eqb s EmptyString then b else a
  | None => b
  end.

(** [if x:] on such a value *)
Definition truthy (a : option string) : bool :=
  match a with
  | Some s => negb (String.eqb s EmptyString)
  | None => false
  end.

Section Service.

(** The collaborators: [fitz.open(stream=.., filetype="pdf")],
    [base64.b64decode] and [round(.., 2)]. *)
Variable fitz_open : string -> result Document.
Variable b64decode : string -> result string.
Variable round2 : float -> float.

Definition open_document (pdf_bytes : string) : io Document :=
  do* doc := io_lift (fitz_open pdf_bytes) in
  do* _ := emit DocOpened in
  io_ret doc.

Definition close_document (doc : Document) : io unit := emit DocClosed.

Definition get_pdf_from_request (req : Request) : result (option string) :=
  match req_files req !! "file" with
  | Some content => Ok (Some content)
  | None =>
      if req_is_json req then
        match req_json req !! "file" with
        | Some file_data =>
            let* file_data :=
              if PyStr.contains "," file_data then
                match PyStr.split "," file_data !! 1%nat with
                | Some piece => Ok piece
                | None => Raise IndexError_list
                end
              else Ok file_data in
            let* pdf_bytes := b64decode file_data in
            Ok (Some pdf_bytes)
        | None => Ok None
        end
      else Ok None
  end.

Definition pages_param_of (req : Request) : option string :=
  py_or (req_form req !! "pages") (req_args req !! "pages").

Definition output_format_of (req : Request) : string :=
  default "text"
    (py_or (py_or (req_form req !! "format") (req_args req !! "format"))
           (Some "text")).

(** The [try] block of [extract]. *)
Definition extract_try (req : Request) : io Response :=
  do* pdf_bytes := io_lift (get_pdf_from_request req) in
  if negb (truthy pdf_bytes) then
    io_ret {| status := 400; body := MissingFileBody true |}
  else
    let pages_param := pages_param_of req in
    let output_format := output_format_of req in
    do* doc := open_document (default EmptyString pdf_bytes) in
    let total_pages := doc_len doc in
    let pages_to_extract := py_range 0 total_pages in
    do* pages_to_extract :=
      if truthy pages_param
      then io_lift (parse_pages (default EmptyString pages_param) total_pages)
      else io_ret pages_to_extract in
    do* (native_score, pdf_type) := io_lift (is_native_pdf doc) in
    do* result :=
      io_lift (if String.eqb output_format "blocks"
               then extract_blocks doc pages_to_extract
               else extract_text doc pages_to_extract) in
    do* _ := close_document doc in
    io_ret {| status := 200;
              body := ExtractBody
                (result_text result)
                total_pages
                (Z.of_nat (length pages_to_extract))
                (PyStr.len (result_text result))
                pdf_type
                (round2 native_score)
                (String.eqb pdf_type "scanned")
                (if String.eqb output_format "blocks"
                 then result_pages_detail result else None) |}.

Definition failure (e : exn) : Response :=
  {| status := 500; body := FailureBody e |}.

(** [POST /extract] *)
Definition extract (req : Request) : list event -> Response * list event :=
  try_except (extract_try req) failure.

Definition page_info (i : nat) (page : Page) : PageInfo :=
  {| info_page := Z.of_nat i + 1;
     info_width := rect_width page;
     info_height := rect_height page;
     info_has_text := 50 <? PyStr.len (PyStr.strip (get_text page));
     info_has_images := 0 <? Z.of_nat (length (get_images page)) |}.

(** [metadata.get(key, "")] *)
Definition metadata_get (doc : Document) (key : string) : string :=
  default EmptyString (doc_metadata doc !! key).

(** The [try] block of [info]. *)
Definition info_try (req : Request) : io Response :=
  do* pdf_bytes := io_lift (get_pdf_from_request req) in
  if negb (truthy pdf_bytes) then
    io_ret {| status := 400; body := MissingFileBody false |}
  else
    do* doc := open_document (default EmptyString pdf_bytes) in
    do* (native_score, pdf_type) := io_lift (is_native_pdf doc) in
    let pages_info := imap page_info (doc_pages doc) in
    do* _ := close_document doc in
    io_ret {| status := 200;
              body := InfoBody
                (metadata_get doc "title")
                (metadata_get doc "author")
                (metadata_get doc "subject")
                (metadata_get doc "creator")
                (metadata_get doc "producer")
                (metadata_get doc "creationDate")
                (metadata_get doc "modDate")
                (Z.of_nat (length pages_info))
                pages_info
                pdf_type
                (round2 native_score)
                (String.eqb pdf_type "scanned") |}.

(** [POST /info] *)
Definition info (req : Request) : list event -> Response * list event :=
  try_except (info_try req) failure.

(** *** The handlers in steps *)

(** The pages [extract] selects: all of them, unless [pages] is given. *)
Definition selected_pages (req : Request) (total_pages : Z) : result (list Z) :=
  if truthy (pages_param_of req)
  then parse_pages (default EmptyString (pages_param_of req)) total_pages
  else Ok (py_range 0 total_pages).

(** The extractor [extract] dispatches to, on [output_format]. *)
Definition dispatched (req : Request) (doc : Document) (pages : list Z)
  : result Extraction :=
  if String.eqb (output_format_of req) "blocks"
  then extract_blocks doc pages
  else extract_text doc pages.

(** What [extract] answers once the document is open. *)
Definition extract_opened (req : Request) (doc : Document) (log : list event)
  : Response * list event :=
  match selected_pages req (doc_len doc) with
  | Raise e => (failure e, (log ++ [DocOpened])%list)
  | Ok pages_to_extract =>
      match is_native_pdf doc with
      | Raise e => (failure e, (log ++ [DocOpened])%list)
      | Ok (native_score, pdf_type) =>
          match dispatched req doc pages_to_extract with
          | Raise e => (failure e, (log ++ [DocOpened])%list)
          | Ok result =>
              ({| status := 200;
                  body := ExtractBody
                    (result_text result)
                    (doc_len doc)
                    (Z.of_nat (length pages_to_extract))
                    (PyStr.len (result_text result))
                    pdf_type
                    (round2 native_score)
                    (String.eqb pdf_type "scanned")
                    (if String.eqb (output_format_of req) "blocks"
                     then result_pages_detail result else None) |},
               (log ++ [DocOpened; DocClosed])%list)
          end
      end
  end.

(** What [info] answers once the document is open. *)
Definition info_opened (doc : Document) (log : list event)
  : Response * list event :=
  match is_native_pdf doc with
  | Raise e => (failure e, (log ++ [DocOpened])%list)
  | Ok (native_score, pdf_type) =>
      let pages_info := imap page_info (doc_pages doc) in
      ({| status := 200;
          body := InfoBody
            (metadata_get doc "title")
            (metadata_get doc "author")
            (metadata_get doc "subject")
            (metadata_get doc "creator")
            (metadata_get doc "producer")
            (metadata_get doc "creationDate")
            (metadata_get doc "modDate")
            (Z.of_nat (length pages_info))
            pages_info
            pdf_type
            (round2 native_score)
            (String.eqb pdf_type "scanned") |},
       (log ++ [DocOpened; DocClosed])%list)
  end.

End Service.

(** ** What the specification says of a malformed page selection *)

(** A part is malformed when one of its pieces is no number for [int]. *)
Definition malformed (part : string) : Prop :=
  exists piece,
    piece ∈ PyStr.split "-" (PyStr.strip part)
    /\ exists e, PyStr.int piece = Raise e.

(** The answer is a client error, and no document was opened for it. *)
Definition reported_as_client_error (outcome : Response * list event) : Prop :=
  400 <= status outcome.1 < 500 /\ DocOpened ∉ outcome.2.

(** The expression that names every page of a document of [n] pages. *)
Definition full_range_expression (n : N) : string :=
  String "1" (String "-" (PyStr.of_N n)).

(** The page-level summary of a detail entry: its block texts, one a line. *)
Definition detail_summary (detail : PageDetail) : string :=
  PyStr.join newline (List.map out_text (detail_blocks detail)).

(** ** Strings of one kind of character *)

(** Every character of [s] satisfies [p] (true of the empty string). *)
Fixpoint all_chars (p : ascii -> bool) (s : string) : bool :=
  match s with
  | EmptyString => true
  | String c r => p c && all_chars p r
  end.

(** The sum of a list of integers. *)
Definition sum_list (zs : list Z) : Z := fold_right Z.add 0 zs.

(** ** Decimal digits *)

(** The string of a list of decimal digits. *)
Fixpoint digits_string (ds : list N) : string :=
  match ds with
  | [] => EmptyString
  | d :: ds' => String (PyStr.digit_char d) (digits_string ds')
  end.

Definition digits_value (ds : list N) (acc : Z) : Z :=
  fold_left (fun a d => 10 * a + Z.of_N d) ds acc.

(** ** Numbers written in decimal digits *)

Definition is_digit (c : ascii) : bool :=
  match PyStr.digit_value c with
  | Some _ => true
  | None => false
  end.

(** A number written with decimal digits only, at least one of them. *)
Definition plain_number (s : string) : Prop :=
  s <> EmptyString /\ all_chars is_digit s = true.

(** The number such a string writes. *)
Fixpoint decimal (acc : Z) (s : string) : Z :=
  match s with
  | EmptyString => acc
  | String c r => decimal (10 * acc + (Z.of_N (PyStr.code c) - 48)) r
  end.

(** A plain number of no more digits than [int] converts. *)
Definition short_number (s : string) : Prop :=
  plain_number s /\ (String.length s <= PyStr.int_max_str_digits)%nat.

(** A part written as a short number, or as two of them about a hyphen. *)
Inductive plain_token (part : string) : Prop :=
  | plain_single :
      short_number (PyStr.strip part) -> plain_token part
  | plain_range (sa sb : string) :
      PyStr.strip part = sa ++ String "-" sb ->
      short_number sa -> short_number sb -> plain_token part.

(** ** Sample documents and requests *)

Module Sample.

Fixpoint letters (n : nat) : string :=
  match n with
  | O => EmptyString
  | S n' => String "a" (letters n')
  end.

Definition page_size : float := Binary64.of_int 612.

Definition text_page (text : string) : Page :=
  {| get_text := text; get_text_blocks := [];
     rect_width := page_size; rect_height := page_size; get_images := [] |}.

Definition block (kind : Z) (text : string) (x : Z) : Block :=
  {| block_x0 := Binary64.of_int x; block_y0 := Binary64.of_int (x + 1);
     block_x1 := Binary64.of_int (x + 2); block_y1 := Binary64.of_int (x + 3);
     block_text := text; block_no := x; block_type := kind |}.

Definition document (pages : list Page) : Document :=
  {| doc_pages := pages; doc_metadata := ∅ |}.

(** The scenario of the specification: two pages of 200 characters and
    an empty one. *)
Definition three_pages : Document :=
  document [text_page (letters 200); text_page (letters 200); text_page ""].

(** Every page above 100 characters. *)
Definition long_pages : Document :=
  document [text_page (letters 101); text_page (letters 150)].

(** Four pages of five with text: a ratio of exactly 0.8. *)
Definition four_of_five : Document :=
  document [text_page (letters 300); text_page (letters 300);
            text_page (letters 300); text_page (letters 300); text_page ""].

(** A page with a text block, an image block, a blank text block and a
    second text block. *)
Definition blocks_page : Page :=
  {| get_text := "Title body";
     get_text_blocks := [block 0 " Title " 10; block 1 "<image>" 20;
                         block 0 "   " 30; block 0 "body" 40];
     rect_width := page_size; rect_height := page_size; get_images := [7] |}.

Definition one_page : Document := document [text_page "Hello"].

(** An engine that opens every file as [doc], a decoder that is never
    needed for an uploaded file, and a rounding that leaves the score. *)
Definition fitz_open (doc : Document) (pdf_bytes : string) : result Document :=
  Ok doc.
Definition b64decode (data : string) : result string :=
  Raise (DecodeError data).
Definition round2 (x : float) : float := x.

(** A multipart request with the file and the given form fields. *)
Definition upload (form : gmap string string) : Request :=
  {| req_files := {[ "file" := "%PDF-1.4" ]};
     req_is_json := false;
     req_json := ∅;
     req_form := form;
     req_args := ∅ |}.

Definition malformed_request : Request := upload {[ "pages" := "abc" ]}.

(** [n] nines in a row. *)
Fixpoint nines (n : nat) : string :=
  match n with
  | O => EmptyString
  | S n' => String "9" (nines n')
  end.

(** A number of one digit more than [int] converts, and the range from
    page 1 to it. *)
Definition long_number : string := nines (S PyStr.int_max_str_digits).
Definition long_range : string := String "1" (String "-" long_number).

(** The file, with an empty [format] field in the form and [format=blocks]
    in the query string. *)
Definition empty_format_request : Request :=
  {| req_files := {[ "file" := "%PDF-1.4" ]};
     req_is_json := false;
     req_json := ∅;
     req_form := {[ "format" := "" ]};
     req_args := {[ "format" := "blocks" ]} |}.

End Sample.

Example split_ex : PyStr.split "," "1, 3-5,,x" = ["1"; " 3-5"; ""; "x"].
Proof. reflexivity. Qed.
Example int_ex : PyStr.int "  +1_000 " = Ok 1000.
Proof. reflexivity. Qed.
Example int_ex2 : PyStr.int "1__0" = Raise (ValueError_int "1__0").
Proof. reflexivity. Qed.
Example of_N_ex : PyStr.of_N 1024 = "1024" /\ PyStr.of_N 0 = "0" /\ PyStr.of_N 9 = "9" /\ PyStr.of_N 10 = "10".
Proof. repeat split; reflexivity. Qed.
Example strip_ex : PyStr.strip "  a b  " = "a b".
Proof. reflexivity. Qed.
Example pp1 : parse_pages "1-2,4" 5 = Ok [0;1;3].
Proof. vm_compute. reflexivity. Qed.
Example pp2 : parse_pages "5-100" 10 = Ok [4;5;6;7;8;9].
Proof. vm_compute. reflexivity. Qed.
Example pp3 : parse_pages "50" 10 = Ok [].
Proof. vm_compute. reflexivity. Qed.
Example pp4 : parse_pages "abc" 10 = Raise (ValueError_int "abc").
Proof. vm_compute. reflexivity. Qed.
Example pp5 : parse_pages "1-2-3" 10 = Raise (ValueError_unpack 2 3).
Proof. vm_compute. reflexivity. Qed.
Example pp6 : parse_pages "-3" 10 = Raise (ValueError_int "").
Proof. vm_compute. reflexivity. Qed.

(** * Properties *)

(** ** Rounding *)

Module Binary64Facts.
Import Binary64.

Lemma div_mod_split (num den : Z) :
  0 < den ->
  num = den * (num / den) + num mod den /\ 0 <= num mod den < den.
Proof.
  intros Hden. split.
  - apply Z.div_mod. lia.
  - apply Z.mod_pos_bound. lia.
Qed.

(** [k <= round_half_even num den] says that [num / den] lies above
    [k - 1/2], or on it when [k] is even. *)
Lemma round_half_even_ge (num den k : Z) :
  0 < den ->
  k <= round_half_even num den <->
  (2 * k - 1) * den < 2 * num \/
  ((2 * k - 1) * den = 2 * num /\ Z.even k = true).
Proof.
  intros Hden. unfold round_half_even.
  destruct (div_mod_split num den Hden) as [Hnum Hr].
  set (q := num / den) in *. set (r := num mod den) in *.
  destruct (Z.ltb_spec (2 * r) den) as [H1 | H1].
  - split.
    + intros Hk. left. nia.
    + intros [H | [H _]]; nia.
  - destruct (Z.ltb_spec den (2 * r)) as [H2 | H2].
    + split.
      * intros Hk. left. nia.
      * intros [H | [H _]]; nia.
    + assert (Hden2 : den = 2 * r) by lia.
      destruct (Z.even q) eqn:Hq.
      * split.
        -- intros Hk. left. nia.
        -- intros [H | [H Hev]]; [nia |].
           assert (k = q + 1) by nia. subst k.
           rewrite Z.even_add, Hq in Hev. discriminate.
      * split.
        -- intros Hk. destruct (Z.eq_dec k (q + 1)) as [-> | Hne].
           ++ right. split; [nia |]. rewrite Z.even_add, Hq. reflexivity.
           ++ left. nia.
        -- intros [H | [H _]]; nia.
Qed.

Lemma round_half_even_mono (n1 d1 n2 d2 : Z) :
  0 < d1 -> 0 < d2 -> n1 * d2 <= n2 * d1 ->
  round_half_even n1 d1 <= round_half_even n2 d2.
Proof.
  intros Hd1 Hd2 Hle.
  apply round_half_even_ge; [assumption |].
  assert (Hk : round_half_even n1 d1 <= round_half_even n1 d1) by lia.
  apply round_half_even_ge in Hk; [| assumption].
  set (k := round_half_even n1 d1) in *.
  destruct (Z.eq_dec (n1 * d2) (n2 * d1)) as [Heq | Hne].
  - destruct Hk as [Hk | [Hk Hev]].
    + left. nia.
    + right. split; [nia | assumption].
  - left. destruct Hk as [Hk | [Hk _]]; nia.
Qed.

Lemma round_half_even_lower (num den k : Z) :
  0 < den -> k * den <= num -> k <= round_half_even num den.
Proof.
  intros Hden Hle. apply round_half_even_ge; [assumption |]. left. nia.
Qed.

Lemma round_half_even_upper (num den k : Z) :
  0 < den -> num <= k * den -> round_half_even num den <= k.
Proof.
  intros Hden Hle.
  destruct (Z.le_gt_cases (round_half_even num den) k) as [H | H];
    [assumption |].
  assert (Hk : k + 1 <= round_half_even num den) by lia.
  apply round_half_even_ge in Hk; [| assumption].
  destruct Hk as [Hk | [Hk _]]; nia.
Qed.

Lemma div_cross_mono (n1 d1 n2 d2 : Z) :
  0 < d1 -> 0 < d2 -> n1 * d2 <= n2 * d1 -> n1 / d1 <= n2 / d2.
Proof.
  intros Hd1 Hd2 Hle.
  apply Z.div_le_lower_bound; [assumption |].
  destruct (div_mod_split n1 d1 Hd1) as [Hn1 Hr].
  nia.
Qed.

Lemma shift_of_nonneg (q : Z) : 0 <= shift_of q.
Proof. unfold shift_of. lia. Qed.

Lemma shift_of_mono (q1 q2 : Z) : q1 <= q2 -> shift_of q1 <= shift_of q2.
Proof.
  intros Hle. unfold shift_of.
  pose proof (Z.log2_le_mono q1 q2 Hle). lia.
Qed.

(** Below the binade of its shift: [q < 2^(53 + shift)]. *)
Lemma shift_of_upper (q : Z) : q < 2 ^ (53 + shift_of q).
Proof.
  destruct (Z.le_gt_cases q 0) as [Hq | Hq].
  - pose proof (shift_of_nonneg q).
    assert (0 < 2 ^ (53 + shift_of q)) by (apply Z.pow_pos_nonneg; lia).
    lia.
  - destruct (Z.log2_spec q Hq) as [_ Hup].
    eapply Z.lt_le_trans; [exact Hup |].
    apply Z.pow_le_mono_r; [lia |]. unfold shift_of. lia.
Qed.

(** With a positive shift the quotient fills its binade:
    [2^(52 + shift) <= q]. *)
Lemma shift_of_lower (q : Z) : 0 < shift_of q -> 2 ^ (52 + shift_of q) <= q.
Proof.
  intros Hs. unfold shift_of in *.
  assert (Hq : 0 < q).
  { destruct (Z.le_gt_cases q 0) as [Hq | Hq]; [| assumption].
    rewrite (Z.log2_nonpos q Hq) in Hs. lia. }
  destruct (Z.log2_spec q Hq) as [Hlo _].
  replace (52 + Z.max 0 (Z.log2 q - 52)) with (Z.log2 q) by lia.
  assumption.
Qed.

Lemma round53_mono (n1 d1 n2 d2 : Z) :
  0 < d1 -> 0 < d2 -> n1 * d2 <= n2 * d1 ->
  round53 n1 d1 <= round53 n2 d2.
Proof.
  intros Hd1 Hd2 Hle. unfold round53.
  fold (shift_of (n1 / d1)). fold (shift_of (n2 / d2)).
  pose proof (div_cross_mono n1 d1 n2 d2 Hd1 Hd2 Hle) as Hq.
  pose proof (shift_of_mono _ _ Hq) as Hs.
  set (s1 := shift_of (n1 / d1)) in *. set (s2 := shift_of (n2 / d2)) in *.
  pose proof (shift_of_nonneg (n1 / d1)) as Hs1. fold s1 in Hs1.
  assert (Hp1 : 0 < 2 ^ s1) by (apply Z.pow_pos_nonneg; lia).
  assert (Hp2 : 0 < 2 ^ s2) by (apply Z.pow_pos_nonneg; lia).
  destruct (Z.eq_dec s1 s2) as [Heq | Hne].
  - rewrite <- Heq.
    apply Z.mul_le_mono_nonneg_r; [lia |].
    apply round_half_even_mono; nia.
  - assert (Hlt : s1 < s2) by lia.
    (* the smaller one stays below [2^(53 + s1)], the larger one reaches
       [2^(52 + s2)] *)
    apply Z.le_trans with (2 ^ 53 * 2 ^ s1).
    + apply Z.mul_le_mono_nonneg_r; [lia |].
      apply round_half_even_upper; [nia |].
      pose proof (shift_of_upper (n1 / d1)) as Hup. fold s1 in Hup.
      rewrite Z.pow_add_r in Hup by lia.
      destruct (div_mod_split n1 d1 Hd1) as [Hn1 Hr].
      nia.
    + apply Z.le_trans with (2 ^ 52 * 2 ^ s2).
      * rewrite <- !Z.pow_add_r by lia.
        apply Z.pow_le_mono_r; lia.
      * apply Z.mul_le_mono_nonneg_r; [lia |].
        apply round_half_even_lower; [nia |].
        assert (Hpos : 0 < s2) by lia.
        pose proof (shift_of_lower (n2 / d2) Hpos) as Hlo. fold s2 in Hlo.
        rewrite Z.pow_add_r in Hlo by lia.
        destruct (div_mod_split n2 d2 Hd2) as [Hn2 Hr].
        nia.
Qed.

Lemma nearest_units_mono (a1 b1 a2 b2 : Z) :
  0 < b1 -> 0 < b2 -> a1 * b2 <= a2 * b1 ->
  nearest_units a1 b1 <= nearest_units a2 b2.
Proof.
  intros Hb1 Hb2 Hle. unfold nearest_units.
  apply round53_mono; [assumption | assumption |].
  assert (0 < 2 ^ unit_exponent) by (apply Z.pow_pos_nonneg; unfold unit_exponent; lia).
  nia.
Qed.

(** Equal quotients round to the same float. *)
Lemma nearest_units_ext (a1 b1 a2 b2 : Z) :
  0 < b1 -> 0 < b2 -> a1 * b2 = a2 * b1 ->
  nearest_units a1 b1 = nearest_units a2 b2.
Proof.
  intros Hb1 Hb2 Heq.
  apply Z.le_antisymm; apply nearest_units_mono; lia.
Qed.

(** Comparing a rounded quotient with a rounded constant is comparing the
    exact ones, as soon as some float [next] separates them: it lies above
    the constant's float and below every quotient above the constant. *)
Lemma gt_nearest (a b cn cd next : Z) :
  0 < b -> 0 < cd ->
  round53 next 1 = next ->
  nearest_units cn cd < next ->
  (cn * b < a * cd -> next * b <= a * 2 ^ unit_exponent) ->
  gt (Float false (nearest_units a b)) (Float false (nearest_units cn cd))
  = (cn * b <? a * cd).
Proof.
  intros Hb Hcd Hfix Hnext Hsep. unfold gt, signed_units. simpl.
  destruct (Z.ltb_spec (cn * b) (a * cd)) as [Hlt | Hge].
  - apply Z.ltb_lt.
    eapply Z.lt_le_trans; [exact Hnext |].
    rewrite <- Hfix. unfold nearest_units.
    apply round53_mono; [lia | assumption |].
    specialize (Hsep Hlt). lia.
  - apply Z.ltb_ge. apply nearest_units_mono; lia.
Qed.

Ltac separation v e :=
  replace (2 ^ unit_exponent) with (2 ^ v * 2 ^ e)
    by (unfold unit_exponent; rewrite <- Z.pow_add_r by lia; reflexivity);
  assert (0 < 2 ^ v) by (apply Z.pow_pos_nonneg; lia);
  unfold exact_range in *;
  let x := eval vm_compute in (2 ^ e) in change (2 ^ e) with x;
  let y := eval vm_compute in (2 ^ 46) in change (2 ^ 46) with y in *;
  generalize dependent (2 ^ v); intros; nia.

Lemma gt_0_8 (a b : Z) :
  0 < b <= exact_range ->
  gt (Float false (nearest_units a b)) (literal 8 10) = (8 * b <? a * 10).
Proof.
  intros Hb. unfold literal.
  apply gt_nearest with (next := after_0_8); try lia.
  - vm_compute. reflexivity.
  - vm_compute. reflexivity.
  - intros Hlt. unfold after_0_8.
    separation 1021 53.
Qed.

Lemma gt_0_3 (a b : Z) :
  0 < b <= exact_range ->
  gt (Float false (nearest_units a b)) (literal 3 10) = (3 * b <? a * 10).
Proof.
  intros Hb. unfold literal.
  apply gt_nearest with (next := after_0_3); try lia.
  - vm_compute. reflexivity.
  - vm_compute. reflexivity.
  - intros Hlt. unfold after_0_3.
    separation 1020 54.
Qed.

Lemma gt_100 (a b : Z) :
  0 < b <= exact_range ->
  gt (Float false (nearest_units a b)) (of_int 100) = (100 * b <? a * 1).
Proof.
  intros Hb.
  change (of_int 100) with (Float false (nearest_units 100 1)).
  apply gt_nearest with (next := after_100); try lia.
  - vm_compute. reflexivity.
  - vm_compute. reflexivity.
  - intros Hlt. unfold after_100.
    separation 1028 46.
Qed.

Lemma gt_50 (a b : Z) :
  0 < b <= exact_range ->
  gt (Float false (nearest_units a b)) (of_int 50) = (50 * b <? a * 1).
Proof.
  intros Hb.
  change (of_int 50) with (Float false (nearest_units 50 1)).
  apply gt_nearest with (next := after_50); try lia.
  - vm_compute. reflexivity.
  - vm_compute. reflexivity.
  - intros Hlt. unfold after_50.
    separation 1027 47.
Qed.

End Binary64Facts.

(** ** Classification *)

Section Classification.
Import Binary64 Binary64Facts.

Lemma gt_units (u v : Z) : gt (Float false u) (Float false v) = (v <? u).
Proof. reflexivity. Qed.

Lemma of_int_100 : of_int 100 = Float false (nearest_units 100 1).
Proof. vm_compute. reflexivity. Qed.

Lemma literal_one : literal 10 10 = of_int 1.
Proof. vm_compute. reflexivity. Qed.

Lemma literal_zero : literal 0 10 = of_int 0.
Proof. vm_compute. reflexivity. Qed.

#[local] Opaque nearest_units.

Lemma truediv_ok (a b bound : Z) :
  0 <= a -> 0 < b -> a <= bound * b -> bound < 2 ^ 1000 ->
  truediv a b = Ok (Float false (nearest_units a b)).
Proof.
  intros Ha Hb Hle Hbound. unfold truediv.
  destruct (Z.eqb_spec b 0) as [-> | _]; [lia |].
  rewrite (Z.abs_eq a) by lia. rewrite (Z.abs_eq b) by lia.
  assert (Hu : nearest_units a b <= nearest_units (2 ^ 1000) 1).
  { apply nearest_units_mono; [lia | lia |]. nia. }
  assert (Hv : nearest_units (2 ^ 1000) 1 < overflow_units)
    by (vm_compute; reflexivity).
  destruct (Z.leb_spec overflow_units (nearest_units a b)) as [H | _];
    [lia |].
  replace (a <? 0) with false by (symmetry; apply Z.ltb_ge; lia).
  replace (b <? 0) with false by (symmetry; apply Z.ltb_ge; lia).
  reflexivity.
Qed.

Lemma strip_with_length (sp : ascii -> bool) (s : string) :
  (String.length (PyStr.strip_with sp s) <= String.length s)%nat.
Proof.
  unfold PyStr.strip_with.
  assert (Hl : forall t, (String.length (PyStr.lstrip_with sp t) <= String.length t)%nat).
  { induction t as [| c t IH]; simpl; [lia |].
    destruct (sp c); simpl; lia. }
  assert (Hr : forall t, (String.length (PyStr.rstrip_with sp t) <= String.length t)%nat).
  { induction t as [| c t IH]; simpl; [lia |].
    destruct (PyStr.rstrip_with sp t); [destruct (sp c) |]; simpl in *; lia. }
  etransitivity; [apply Hr | apply Hl].
Qed.

Lemma trimmedLength_bounds (page : Page) :
  0 <= Spec.trimmedLength page <= PyStr.len (get_text page).
Proof.
  unfold Spec.trimmedLength, PyStr.len, PyStr.strip.
  pose proof (strip_with_length PyStr.is_space (get_text page)). lia.
Qed.

(** The loop of [is_native_pdf] computes the two totals of the
    specification. *)
Lemma count_pages_spec (pages : list Page) (p t : Z) :
  fold_left count_page pages (p, t)
  = (p + Z.of_nat (length (List.filter Spec.hasText pages)),
     t + fold_right Z.add 0 (List.map Spec.trimmedLength pages)).
Proof.
  revert p t. induction pages as [| page pages IH]; intros p t.
  - simpl. f_equal; lia.
  - cbn [fold_left List.filter List.map fold_right].
    replace (count_page (p, t) page)
      with (if Spec.hasText page then p + 1 else p, t + Spec.trimmedLength page)
      by reflexivity.
    rewrite IH. destruct (Spec.hasText page); cbn [length]; f_equal; lia.
Qed.

Lemma pagesWithText_bounds (doc : Document) :
  0 <= Spec.pagesWithText doc <= Spec.totalPages doc.
Proof.
  unfold Spec.pagesWithText, Spec.totalPages, doc_len.
  pose proof (List.filter_length_le Spec.hasText (doc_pages doc)). lia.
Qed.

Lemma totalTextLength_bounds (doc : Document) :
  Forall (fun page => PyStr.len (get_text page) <= sys_maxsize) (doc_pages doc) ->
  0 <= Spec.totalTextLength doc <= sys_maxsize * Spec.totalPages doc.
Proof.
  unfold Spec.totalTextLength, Spec.totalPages, doc_len.
  induction 1 as [| page pages Hpage _ IH]; simpl; [lia |].
  pose proof (trimmedLength_bounds page). lia.
Qed.

Lemma exceeds_quotient (a n c : Z) (d : positive) :
  0 < n ->
  Spec.exceeds (Qmake a (Z.to_pos n)) (Qmake c d) = (c * n <? a * Z.pos d).
Proof.
  intros Hn. unfold Spec.exceeds.
  destruct (Qlt_le_dec (Qmake c d) (Qmake a (Z.to_pos n))) as [H | H];
    [unfold Qlt in H | unfold Qle in H]; simpl in H;
    rewrite Z2Pos.id in H by assumption; symmetry.
  - apply Z.ltb_lt. lia.
  - apply Z.ltb_ge. lia.
Qed.

(** C1.  On every document the engine can hand over (at most
    [exact_range] pages, each text a Python string) [is_native_pdf]
    returns what the decision table of the specification gives: page
    texts are trimmed and measured, a page has text when its trimmed
    length is above 50, the two quotients are taken over the page count,
    and the first rule that matches decides: no page, "empty" with score
    0; ratio above 0.8 and average above 100, "native" with score 1;
    ratio above 0.3 or average above 50, "mixed" with the ratio as score;
    otherwise "scanned" with score 0.  All comparisons are strict, and
    the rounded quotients of the code decide as the exact ones. *)
Theorem is_native_pdf_decision_table (doc : Document) :
  doc_len doc <= exact_range ->
  Forall (fun page => PyStr.len (get_text page) <= sys_maxsize) (doc_pages doc) ->
  is_native_pdf doc = Ok (Spec.classify doc).
Proof.
  intros Hpages Htexts.
  pose proof (pagesWithText_bounds doc) as Hp.
  pose proof (totalTextLength_bounds doc Htexts) as Ht.
  unfold is_native_pdf, Spec.classify.
  rewrite count_pages_spec. rewrite !Z.add_0_l.
  fold (Spec.pagesWithText doc). fold (Spec.totalTextLength doc).
  fold (Spec.totalPages doc) in *.
  destruct (Z.eqb_spec (Spec.totalPages doc) 0) as [Hz | Hnz]; [reflexivity |].
  assert (Hn : 0 < Spec.totalPages doc) by lia.
  rewrite (truediv_ok _ _ 1) by lia.
  rewrite (truediv_ok _ _ sys_maxsize) by (unfold sys_maxsize in *; lia).
  cbn [bind].
  rewrite gt_0_8, gt_100, gt_0_3, gt_50 by lia.
  unfold Spec.textRatio, Spec.avgTextPerPage, Spec.score_of.
  rewrite !exceeds_quotient by assumption.
  cbn [Qnum Qden]. rewrite Z2Pos.id by assumption.
  destruct (_ && _); [reflexivity |].
  destruct (_ || _); reflexivity.
Qed.

Lemma all_pages_long (pages : list Page) :
  Forall (fun page => 100 < Spec.trimmedLength page) pages ->
  Z.of_nat (length (List.filter Spec.hasText pages)) = Z.of_nat (length pages)
  /\ 101 * Z.of_nat (length pages)
     <= fold_right Z.add 0 (List.map Spec.trimmedLength pages).
Proof.
  induction 1 as [| page pages Hpage _ [IH1 IH2]]; [simpl; lia |].
  cbn [List.filter List.map fold_right].
  replace (Spec.hasText page) with true
    by (symmetry; apply Z.ltb_lt; lia).
  cbn [length]. lia.
Qed.

(** What [is_native_pdf] does once the counters are known, for a
    document with pages whose texts are Python strings. *)
Lemma is_native_pdf_unfold (doc : Document) :
  0 < Spec.totalPages doc ->
  Forall (fun page => PyStr.len (get_text page) <= sys_maxsize) (doc_pages doc) ->
  let text_ratio :=
    Float false (nearest_units (Spec.pagesWithText doc) (Spec.totalPages doc)) in
  let avg_text_per_page :=
    Float false (nearest_units (Spec.totalTextLength doc) (Spec.totalPages doc)) in
  is_native_pdf doc =
  if gt text_ratio (literal 8 10) && gt avg_text_per_page (of_int 100)
  then Ok (literal 10 10, "native")
  else if gt text_ratio (literal 3 10) || gt avg_text_per_page (of_int 50)
  then Ok (text_ratio, "mixed")
  else Ok (literal 0 10, "scanned").
Proof.
  intros Hn Htexts.
  pose proof (pagesWithText_bounds doc) as Hp.
  pose proof (totalTextLength_bounds doc Htexts) as Ht.
  unfold is_native_pdf.
  rewrite count_pages_spec. rewrite !Z.add_0_l.
  fold (Spec.pagesWithText doc). fold (Spec.totalTextLength doc).
  fold (Spec.totalPages doc).
  destruct (Z.eqb_spec (Spec.totalPages doc) 0) as [Hz | Hnz]; [lia |].
  rewrite (truediv_ok _ _ 1) by lia.
  rewrite (truediv_ok _ _ sys_maxsize) by (unfold sys_maxsize in *; lia).
  reflexivity.
Qed.

Lemma not_native_at_boundary (p t n : Z) :
  0 < n -> p * 10 = 8 * n \/ t = 100 * n ->
  (nearest_units 8 10 <? nearest_units p n)
  && (nearest_units 100 1 <? nearest_units t n) = false.
Proof.
  intros Hn [H | H].
  - rewrite (nearest_units_ext p n 8 10) by lia.
    rewrite (Z.ltb_irrefl (nearest_units 8 10)). reflexivity.
  - rewrite (nearest_units_ext t n 100 1) by lia.
    rewrite (Z.ltb_irrefl (nearest_units 100 1)). apply andb_false_r.
Qed.

Lemma native_when_long (t n : Z) :
  0 < n -> 101 * n <= t ->
  (nearest_units 8 10 <? nearest_units n n)
  && (nearest_units 100 1 <? nearest_units t n) = true.
Proof.
  intros Hn Ht.
  rewrite (nearest_units_ext n n 1 1) by lia.
  assert (Havg : nearest_units 101 1 <= nearest_units t n)
    by (apply nearest_units_mono; lia).
  assert (Hstep : nearest_units 100 1 < nearest_units 101 1)
    by (vm_compute; reflexivity).
  apply andb_true_iff. split.
  - vm_compute; reflexivity.
  - apply Z.ltb_lt. eapply Z.lt_le_trans; eassumption.
Qed.

(** C4.  A document with at least one page, every page with more than
    100 characters of trimmed text, is "native" with score 1.0; and a
    document whose ratio is exactly 0.8, or whose average is exactly 100,
    is not "native": both comparisons are strict. *)
Theorem native_needs_strictly_more (doc : Document) :
  Forall (fun page => PyStr.len (get_text page) <= sys_maxsize) (doc_pages doc) ->
  0 < Spec.totalPages doc ->
  (Forall (fun page => 100 < Spec.trimmedLength page) (doc_pages doc) ->
   is_native_pdf doc = Ok (of_int 1, "native"))
  /\ ((Spec.textRatio doc == 8 # 10)%Q \/ (Spec.avgTextPerPage doc == 100 # 1)%Q ->
      exists score label,
        is_native_pdf doc = Ok (score, label) /\ label <> "native").
Proof.
  intros Htexts Hn.
  rewrite (is_native_pdf_unfold doc Hn Htexts). cbv zeta.
  change (literal 8 10) with (Float false (nearest_units 8 10)).
  rewrite of_int_100, literal_one. rewrite !gt_units.
  split.
  - intros Hlong.
    destruct (all_pages_long _ Hlong) as [Hp Ht].
    fold (Spec.pagesWithText doc) in Hp. fold (Spec.totalTextLength doc) in Ht.
    fold (doc_len doc) in Hp, Ht. fold (Spec.totalPages doc) in Hp, Ht.
    rewrite Hp, native_when_long by assumption. reflexivity.
  - intros Hboundary.
    rewrite not_native_at_boundary.
    + destruct (_ || _); eexists _, _; (split; [reflexivity | discriminate]).
    + assumption.
    + unfold Spec.textRatio, Spec.avgTextPerPage, Qeq in Hboundary.
      cbn [Qnum Qden] in Hboundary.
      rewrite Z2Pos.id in Hboundary by assumption. lia.
Qed.

End Classification.

(** ** Strings *)

Section StringFacts.

Lemma split_no_separator (c : ascii) (s : string) :
  PyStr.contains c s = false -> PyStr.split c s = [s].
Proof.
  induction s as [| a s IH]; simpl; [reflexivity |].
  destruct (Ascii.eqb a c); [discriminate |].
  intros H. rewrite (IH H). reflexivity.
Qed.

Lemma split_at_separator (c : ascii) (s1 s2 : string) :
  PyStr.contains c s1 = false ->
  PyStr.split c (s1 ++ String c s2) = s1 :: PyStr.split c s2.
Proof.
  induction s1 as [| a s1 IH]; simpl.
  - intros _. rewrite Ascii.eqb_refl. reflexivity.
  - destruct (Ascii.eqb a c); [discriminate |].
    intros H. rewrite (IH H). reflexivity.
Qed.

Lemma contains_app (c : ascii) (s1 s2 : string) :
  PyStr.contains c (s1 ++ s2) = PyStr.contains c s1 || PyStr.contains c s2.
Proof.
  induction s1 as [| a s1 IH]; simpl; [reflexivity |].
  destruct (Ascii.eqb a c); [reflexivity | assumption].
Qed.

Lemma split_not_nil (c : ascii) (s : string) : PyStr.split c s <> [].
Proof.
  destruct s as [| a s]; simpl; [discriminate |].
  destruct (Ascii.eqb a c); [discriminate |].
  destruct (PyStr.split c s); discriminate.
Qed.

End StringFacts.

(** ** Page selection *)

Section PageSelection.

Lemma for_each_app {A S} (body : S -> A -> result S) (s : S) (xs ys : list A) :
  for_each body s (xs ++ ys)
  = let* s' := for_each body s xs in for_each body s' ys.
Proof.
  revert s. induction xs as [| x xs IH]; intros s; simpl; [reflexivity |].
  destruct (body s x); simpl; [apply IH | reflexivity].
Qed.

(** A part adds its pages to the set: it reads nothing of the set. *)
Lemma parse_part_union (total_pages : Z) (pages : gset Z) (part : string) :
  parse_part total_pages pages part
  = let* more := parse_part total_pages ∅ part in Ok (pages ∪ more).
Proof.
  unfold parse_part.
  destruct (PyStr.contains "-" (PyStr.strip part)).
  - destruct (unpack2 _) as [[start end_] | e]; simpl; [| reflexivity].
    destruct (PyStr.int start); simpl; [| reflexivity].
    destruct (PyStr.int end_); simpl; [| reflexivity].
    f_equal. set_solver.
  - destruct (PyStr.int _) as [k | e]; simpl; [| reflexivity].
    destruct (_ && _); simpl; f_equal; set_solver.
Qed.

(** The loop either raises at its first malformed part, or returns the
    union of what the parts denote. *)
Lemma for_each_parse_part (total_pages : Z) (parts : list string) (pages : gset Z) :
  (exists e, for_each (parse_part total_pages) pages parts = Raise e
             /\ exists part, part ∈ parts /\ part_pages total_pages part = Raise e)
  \/ (exists more,
        for_each (parse_part total_pages) pages parts = Ok (pages ∪ more)
        /\ (forall x, x ∈ more <->
              exists part s, part ∈ parts
                             /\ part_pages total_pages part = Ok s /\ x ∈ s)
        /\ forall part, part ∈ parts -> exists s, part_pages total_pages part = Ok s).
Proof.
  revert pages. induction parts as [| part parts IH]; intros pages.
  - right. exists ∅. simpl. split; [f_equal; set_solver |].
    split; [| set_solver].
    intros x. split; [set_solver |].
    intros (p & s & Hin & _). set_solver.
  - cbn [for_each]. rewrite parse_part_union. fold (part_pages total_pages part).
    destruct (part_pages total_pages part) as [s | e] eqn:Hpart; cbn [bind].
    + destruct (IH (pages ∪ s)) as [(e & Hraise & p & Hin & Hp) | (more & Hok & Hmore & Hall)].
      * left. exists e. split; [assumption |]. exists p. split; [set_solver | assumption].
      * right. exists (s ∪ more). split; [rewrite Hok; f_equal; set_solver |].
        split.
        -- intros x. rewrite elem_of_union, Hmore. split.
           ++ intros [Hx | (p & s' & Hin & Hp & Hx)].
              ** exists part, s. set_solver.
              ** exists p, s'. set_solver.
           ++ intros (p & s' & Hin & Hp & Hx).
              apply elem_of_cons in Hin as [-> | Hin].
              ** left. congruence.
              ** right. eauto.
        -- intros p Hin. apply elem_of_cons in Hin as [-> | Hin]; eauto.
    + left. exists e. split; [reflexivity |]. exists part. split; [set_solver | assumption].
Qed.

(** *** Sorting a set *)

Lemma sorted_le_lt (l : list Z) :
  StronglySorted Z.le l -> NoDup l -> StronglySorted Z.lt l.
Proof.
  induction 1 as [| x l Hl IH Hx]; intros Hnd; constructor.
  - apply IH. by apply NoDup_cons in Hnd as [_ ?].
  - apply NoDup_cons in Hnd as [Hnotin _].
    rewrite List.Forall_forall in Hx. apply List.Forall_forall.
    intros y Hy. specialize (Hx y Hy).
    assert (x <> y) by (intros ->; apply Hnotin; by apply list_elem_of_In).
    lia.
Qed.

Lemma sorted_lt_le (l : list Z) :
  StronglySorted Z.lt l -> StronglySorted Z.le l /\ NoDup l.
Proof.
  induction 1 as [| x l Hl [IH1 IH2] Hx]; split; try constructor; try assumption.
  - eapply List.Forall_impl; [| exact Hx]. intros; simpl in *; lia.
  - intros Hin. apply list_elem_of_In in Hin.
    rewrite List.Forall_forall in Hx. specialize (Hx x Hin). lia.
Qed.

(** [sorted(pages)] lists the set in strictly ascending order. *)
Lemma py_sorted_spec (pages : gset Z) :
  StronglySorted Z.lt (py_sorted pages)
  /\ NoDup (py_sorted pages)
  /\ forall x, x ∈ py_sorted pages <-> x ∈ pages.
Proof.
  unfold py_sorted.
  assert (Hperm : merge_sort Z.le (elements pages) ≡ₚ elements pages)
    by apply merge_sort_Permutation.
  assert (Hnd : NoDup (merge_sort Z.le (elements pages)))
    by (rewrite Hperm; apply NoDup_elements).
  split; [| split].
  - apply sorted_le_lt; [| assumption].
    apply StronglySorted_merge_sort; apply _.
  - assumption.
  - intros x. rewrite Hperm. apply elem_of_elements.
Qed.

(** Two strictly ascending lists with the same members are the same list. *)
Lemma ascending_unique (l1 l2 : list Z) :
  StronglySorted Z.lt l1 -> StronglySorted Z.lt l2 ->
  (forall x, x ∈ l1 <-> x ∈ l2) -> l1 = l2.
Proof.
  intros H1 H2 Hmem.
  destruct (sorted_lt_le _ H1) as [Hs1 Hn1].
  destruct (sorted_lt_le _ H2) as [Hs2 Hn2].
  apply (StronglySorted_unique Z.le); [assumption | assumption |].
  apply NoDup_Permutation; assumption.
Qed.

Lemma py_sorted_list (l : list Z) :
  StronglySorted Z.lt l -> py_sorted (list_to_set l) = l.
Proof.
  intros Hl.
  destruct (py_sorted_spec (list_to_set l)) as (Hs & _ & Hmem).
  apply ascending_unique; [assumption | assumption |].
  intros x. rewrite Hmem. apply elem_of_list_to_set.
Qed.

Lemma py_range_ascending (start stop : Z) :
  StronglySorted Z.lt (py_range start stop).
Proof.
  unfold py_range.
  destruct (Z.le_gt_cases (stop - start) 0) as [Hle | Hgt].
  - rewrite seqZ_nil by assumption. constructor.
  - rewrite <- (Z2Nat.id (stop - start)) by lia.
    generalize (Z.to_nat (stop - start)) as len. clear.
    induction len as [| len IH]; [rewrite seqZ_nil by lia; constructor |].
    rewrite seqZ_S. apply StronglySorted_app_2; [| assumption | repeat constructor].
    intros x y Hx Hy. apply elem_of_seqZ in Hx. apply list_elem_of_singleton in Hy.
    lia.
Qed.

Lemma elem_of_py_range (start stop x : Z) :
  x ∈ py_range start stop <-> start <= x < stop.
Proof. unfold py_range. rewrite elem_of_seqZ. lia. Qed.

(** *** What a part denotes *)

Lemma parse_part_single (total_pages : Z) (pages : gset Z) (part : string) (k : Z) :
  numeral (PyStr.strip part) k ->
  parse_part total_pages pages part
  = Ok (if (0 <=? k - 1) && (k - 1 <? total_pages)
        then pages ∪ {[ k - 1 ]} else pages).
Proof.
  intros [Hdash Hint]. unfold parse_part. rewrite Hdash, Hint. cbn [bind].
  destruct (_ && _); reflexivity.
Qed.

Lemma parse_part_range (total_pages : Z) (pages : gset Z) (part sa sb : string)
      (a b : Z) :
  PyStr.strip part = sa ++ String "-" sb ->
  numeral sa a -> numeral sb b ->
  parse_part total_pages pages part
  = Ok (pages ∪ list_to_set (py_range (Z.max 0 (a - 1)) (Z.min total_pages b))).
Proof.
  intros Hpart [Hda Ha] [Hdb Hb]. unfold parse_part. rewrite Hpart.
  rewrite contains_app. cbn [PyStr.contains]. rewrite Ascii.eqb_refl, orb_true_r.
  rewrite split_at_separator by assumption.
  rewrite split_no_separator by assumption.
  cbn [unpack2 bind]. rewrite Ha. cbn [bind]. rewrite Hb. reflexivity.
Qed.

(** Whatever a part denotes lies in [0, total_pages). *)
Lemma part_pages_bounds (total_pages : Z) (part : string) (s : gset Z) :
  part_pages total_pages part = Ok s -> forall x, x ∈ s -> 0 <= x < total_pages.
Proof.
  unfold part_pages, parse_part.
  destruct (PyStr.contains "-" (PyStr.strip part)).
  - destruct (unpack2 _) as [[start end_] | e]; cbn [bind]; [| discriminate].
    destruct (PyStr.int start); cbn [bind]; [| discriminate].
    destruct (PyStr.int end_); cbn [bind]; [| discriminate].
    intros [= <-] x Hx.
    rewrite elem_of_union, elem_of_list_to_set, elem_of_py_range in Hx.
    set_solver by lia.
  - destruct (PyStr.int _) as [k | e]; cbn [bind]; [| discriminate].
    destruct (0 <=? k - 1) eqn:H1; destruct (k - 1 <? total_pages) eqn:H2;
      cbn [andb]; intros [= <-] x Hx; try set_solver.
    apply Z.leb_le in H1. apply Z.ltb_lt in H2. set_solver by lia.
Qed.

Lemma token_denotes (total_pages : Z) (part : string) :
  token part -> exists s, part_pages total_pages part = Ok s.
Proof.
  unfold part_pages.
  intros [k Hk | sa sb a b Hpart Ha Hb].
  - rewrite (parse_part_single _ _ _ k Hk). eauto.
  - rewrite (parse_part_range _ _ _ sa sb a b Hpart Ha Hb). eauto.
Qed.

(** A well-formed expression parses, to the ascending list of the pages
    its parts denote. *)
Lemma parse_pages_well_formed (expression : string) (total_pages : Z) :
  well_formed expression ->
  exists l,
    parse_pages expression total_pages = Ok l
    /\ StronglySorted Z.lt l
    /\ NoDup l
    /\ forall x, x ∈ l <->
          exists part s, part ∈ PyStr.split "," expression
                         /\ part_pages total_pages part = Ok s /\ x ∈ s.
Proof.
  intros Hwf. unfold parse_pages.
  destruct (for_each_parse_part total_pages (PyStr.split "," expression) ∅)
    as [(e & _ & part & Hin & Hraise) | (more & Hok & Hmore & _)].
  - unfold well_formed in Hwf. rewrite Forall_forall in Hwf.
    destruct (token_denotes total_pages part (Hwf part Hin)) as [s Hs].
    congruence.
  - rewrite Hok. cbn [bind].
    destruct (py_sorted_spec (∅ ∪ more)) as (Hs & Hnd & Hmem).
    eexists. split; [reflexivity |]. split; [assumption |]. split; [assumption |].
    intros x. rewrite Hmem, <- Hmore. set_solver.
Qed.

Lemma parse_pages_one_part (part : string) (total_pages : Z) :
  PyStr.contains "," part = false ->
  parse_pages part total_pages
  = let* pages := part_pages total_pages part in Ok (py_sorted pages).
Proof.
  intros Hcomma. unfold parse_pages, part_pages.
  rewrite split_no_separator by assumption. cbn [for_each].
  destruct (parse_part total_pages ∅ part); reflexivity.
Qed.

End PageSelection.

(** ** Numerals: [int(str(n)) = n] *)

Section Numerals.

Lemma digits_string_app (ds1 ds2 : list N) :
  digits_string (ds1 ++ ds2) = digits_string ds1 ++ digits_string ds2.
Proof.
  induction ds1 as [| d ds1 IH]; simpl; [reflexivity |]. by rewrite IH.
Qed.

Lemma string_app_assoc (s1 s2 s3 : string) : (s1 ++ s2) ++ s3 = s1 ++ s2 ++ s3.
Proof.
  induction s1 as [| c s1 IH]; [reflexivity |].
  change (String c ((s1 ++ s2) ++ s3) = String c (s1 ++ s2 ++ s3)).
  by rewrite IH.
Qed.

Lemma string_app_nil (s : string) : s ++ EmptyString = s.
Proof.
  induction s as [| c s IH]; [reflexivity |].
  change (String c (s ++ EmptyString) = String c s). by rewrite IH.
Qed.

Lemma of_pos_fuel_digits (fuel : nat) : forall (n : N) (acc : string),
  (n < 2 ^ N.of_nat fuel)%N -> (0 < fuel)%nat ->
  exists ds,
    PyStr.of_pos_fuel fuel n acc = digits_string ds ++ acc
    /\ ds <> []
    /\ Forall (fun d => (d < 10)%N) ds
    /\ digits_value ds 0 = Z.of_N n.
Proof.
  induction fuel as [| fuel IH]; intros n acc Hn Hfuel; [lia |].
  cbn [PyStr.of_pos_fuel].
  assert (Hmod : (n mod 10 < 10)%N) by (apply N.mod_lt; lia).
  destruct (N.eqb_spec (n / 10) 0) as [Hq | Hq].
  - exists [(n mod 10)%N]. split; [reflexivity |]. split; [discriminate |].
    split; [repeat constructor; assumption |].
    unfold digits_value. cbn [fold_left].
    pose proof (N.Div0.div_mod n 10). lia.
  - assert (Hdiv : (n / 10 < 2 ^ N.of_nat fuel)%N).
    { apply N.Div0.div_lt_upper_bound.
      rewrite Nat2N.inj_succ, N.pow_succ_r' in Hn. lia. }
    assert (Hpos : (0 < fuel)%nat).
    { destruct fuel; [| lia].
      change (2 ^ N.of_nat 0)%N with 1%N in Hdiv.
      apply N.lt_1_r in Hdiv. contradiction. }
    destruct (IH (n / 10)%N (String (PyStr.digit_char (n mod 10)) acc) Hdiv Hpos)
      as (ds & Heq & Hne & Hall & Hval).
    exists (ds ++ [(n mod 10)%N])%list. split; [| split; [| split]].
    + rewrite Heq, digits_string_app, string_app_assoc. reflexivity.
    + destruct ds; discriminate.
    + apply Forall_app. split; [assumption | repeat constructor; assumption].
    + unfold digits_value in *. rewrite fold_left_app, Hval. cbn [fold_left].
      pose proof (N.Div0.div_mod n 10). lia.
Qed.

Lemma of_N_digits (n : N) :
  exists ds,
    PyStr.of_N n = digits_string ds
    /\ ds <> []
    /\ Forall (fun d => (d < 10)%N) ds
    /\ digits_value ds 0 = Z.of_N n.
Proof.
  unfold PyStr.of_N.
  destruct (of_pos_fuel_digits (S (N.to_nat (N.log2 n))) n EmptyString)
    as (ds & Heq & Hrest).
  - rewrite Nat2N.inj_succ, N2Nat.id.
    destruct (N.eq_dec n 0%N) as [-> | Hn]; [reflexivity |].
    apply N.log2_spec. lia.
  - lia.
  - exists ds. split; [| assumption].
    rewrite Heq. apply string_app_nil.
Qed.

Lemma digit_cases (d : N) :
  (d < 10)%N ->
  d = 0%N \/ d = 1%N \/ d = 2%N \/ d = 3%N \/ d = 4%N \/ d = 5%N
  \/ d = 6%N \/ d = 7%N \/ d = 8%N \/ d = 9%N.
Proof. lia. Qed.

Ltac each_digit H :=
  apply digit_cases in H;
  repeat (destruct H as [-> | H]); [.. | subst].

Lemma digit_value_char (d : N) :
  (d < 10)%N -> PyStr.digit_value (PyStr.digit_char d) = Some (Z.of_N d).
Proof. intros H. each_digit H; reflexivity. Qed.

(** What a digit is not. *)
Lemma digit_char_plain (d : N) :
  (d < 10)%N ->
  let c := PyStr.digit_char d in
  PyStr.is_space c = false /\ PyStr.is_int_space c = false
  /\ Ascii.eqb c "-" = false /\ Ascii.eqb c "," = false
  /\ Ascii.eqb c "_" = false /\ Ascii.eqb c "+" = false.
Proof. intros H. each_digit H; repeat split; reflexivity. Qed.

Lemma digits_from_digits (ds : list N) (acc : Z) (digits : nat) (rest : string) :
  Forall (fun d => (d < 10)%N) ds ->
  PyStr.digits_from acc digits false (digits_string ds ++ rest)
  = PyStr.digits_from (digits_value ds acc) (length ds + digits) false rest.
Proof.
  intros Hall. revert acc digits.
  induction Hall as [| d ds Hd _ IH]; intros acc digits; [reflexivity |].
  change (digits_string (d :: ds) ++ rest)
    with (String (PyStr.digit_char d) (digits_string ds ++ rest)).
  cbn [PyStr.digits_from].
  rewrite (digit_value_char d Hd), IH. cbn [length].
  by replace (length ds + S digits)%nat with (S (length ds) + digits)%nat by lia.
Qed.

Lemma digits_contains (c : ascii) (ds : list N) :
  (forall d, (d < 10)%N -> Ascii.eqb (PyStr.digit_char d) c = false) ->
  Forall (fun d => (d < 10)%N) ds ->
  PyStr.contains c (digits_string ds) = false.
Proof.
  intros Hc. induction 1 as [| d ds Hd _ IH]; [reflexivity |].
  cbn [digits_string PyStr.contains]. by rewrite (Hc d Hd).
Qed.

(** Stripping leaves a string alone when neither end is white space. *)
Lemma lstrip_with_head (sp : ascii -> bool) (c : ascii) (s : string) :
  sp c = false -> PyStr.lstrip_with sp (String c s) = String c s.
Proof. intros H. simpl. by rewrite H. Qed.

Lemma rstrip_with_all (sp : ascii -> bool) (s : string) :
  (forall c, PyStr.contains c s = true -> sp c = false) ->
  PyStr.rstrip_with sp s = s.
Proof.
  induction s as [| a s IH]; intros Hall; [reflexivity |].
  cbn [PyStr.rstrip_with]. rewrite IH.
  - destruct s; [| reflexivity].
    rewrite (Hall a); [reflexivity |]. simpl. by rewrite Ascii.eqb_refl.
  - intros c Hc. apply Hall. simpl. rewrite Hc. by destruct (Ascii.eqb a c).
Qed.

Lemma strip_with_all (sp : ascii -> bool) (s : string) :
  (forall c, PyStr.contains c s = true -> sp c = false) ->
  PyStr.strip_with sp s = s.
Proof.
  intros Hall. unfold PyStr.strip_with.
  destruct s as [| a s]; [reflexivity |].
  rewrite lstrip_with_head.
  - by apply rstrip_with_all.
  - apply Hall. simpl. by rewrite Ascii.eqb_refl.
Qed.

Lemma digits_no_space (sp : ascii -> bool) (ds : list N) :
  (forall d, (d < 10)%N -> sp (PyStr.digit_char d) = false) ->
  Forall (fun d => (d < 10)%N) ds ->
  forall c, PyStr.contains c (digits_string ds) = true -> sp c = false.
Proof.
  intros Hsp. induction 1 as [| d ds Hd _ IH]; intros c; [discriminate |].
  cbn [digits_string PyStr.contains].
  destruct (Ascii.eqb_spec (PyStr.digit_char d) c) as [<- | _]; auto.
Qed.

Lemma digits_string_length (ds : list N) :
  String.length (digits_string ds) = length ds.
Proof. induction ds as [| d ds IH]; [reflexivity |]. cbn. by rewrite IH. Qed.

(** [int] on a string of digits: the number they write, unless they are
    more than the limit. *)
Lemma digits_string_int (ds : list N) :
  ds <> [] ->
  Forall (fun d => (d < 10)%N) ds ->
  PyStr.int (digits_string ds)
  = if (PyStr.int_max_str_digits <? length ds)%nat
    then Raise (ValueError_digits (length ds))
    else Ok (digits_value ds 0).
Proof.
  intros Hne Hall. unfold PyStr.int. cbv zeta. rewrite strip_with_all.
  - destruct ds as [| d ds]; [congruence |].
    pose proof Hall as Hall'. apply Forall_cons in Hall' as [Hd _].
    assert (Hsign : PyStr.sign_of (digits_string (d :: ds))
                    = (false, digits_string (d :: ds))).
    { cbn [digits_string]. clear -Hd. each_digit Hd; reflexivity. }
    rewrite Hsign.
    assert (Hlead : PyStr.leading_underscore (digits_string (d :: ds)) = false).
    { cbn [digits_string PyStr.leading_underscore].
      by destruct (digit_char_plain d Hd) as (_ & _ & _ & _ & -> & _). }
    rewrite Hlead.
    pose proof (digits_from_digits (d :: ds) 0 0 EmptyString Hall) as Hread.
    rewrite string_app_nil in Hread. rewrite Hread.
    cbn [PyStr.digits_from]. rewrite Nat.add_0_r.
    destruct (PyStr.int_max_str_digits <? length (d :: ds))%nat; reflexivity.
  - apply digits_no_space; [| assumption]. intros d Hd. apply digit_char_plain, Hd.
Qed.

(** [str(n)] is a numeral, and [int] reads [n] back from it, when [n] has no
    more digits than [int] converts. *)
Theorem of_N_numeral (n : N) :
  (String.length (PyStr.of_N n) <= PyStr.int_max_str_digits)%nat ->
  numeral (PyStr.of_N n) (Z.of_N n)
  /\ PyStr.contains "," (PyStr.of_N n) = false
  /\ PyStr.strip (PyStr.of_N n) = PyStr.of_N n.
Proof.
  destruct (of_N_digits n) as (ds & -> & Hne & Hall & Hval). intros Hlimit.
  rewrite (digits_string_length ds) in Hlimit.
  split; [split |]; [| | split].
  - apply digits_contains; [| assumption]. intros d Hd. apply digit_char_plain, Hd.
  - rewrite (digits_string_int ds Hne Hall), Hval.
    destruct (Nat.ltb_spec PyStr.int_max_str_digits (length ds)) as [Hover | _];
      [lia | reflexivity].
  - apply digits_contains; [| assumption]. intros d Hd. apply digit_char_plain, Hd.
  - apply strip_with_all.
    apply digits_no_space; [| assumption]. intros d Hd. apply digit_char_plain, Hd.
Qed.

(** *** Plain numbers *)

Lemma is_digit_char (c : ascii) :
  is_digit c = true -> exists d, (d < 10)%N /\ c = PyStr.digit_char d.
Proof.
  intros H. exists (PyStr.code c - 48)%N.
  destruct c as [[] [] [] [] [] [] [] []]; vm_compute in H; try discriminate H;
    split; reflexivity.
Qed.

Lemma digit_char_code (d : N) :
  (d < 10)%N -> Z.of_N (PyStr.code (PyStr.digit_char d)) - 48 = Z.of_N d.
Proof. intros H. each_digit H; reflexivity. Qed.

(** A string of digits is the string of a list of digits. *)
Lemma plain_digits (s : string) :
  all_chars is_digit s = true ->
  exists ds,
    Forall (fun d => (d < 10)%N) ds
    /\ s = digits_string ds
    /\ length ds = String.length s
    /\ forall acc, digits_value ds acc = decimal acc s.
Proof.
  induction s as [| c s IH]; intros Hall.
  - exists []. repeat split. constructor.
  - cbn [all_chars] in Hall. apply andb_true_iff in Hall as [Hc Hs].
    destruct (is_digit_char c Hc) as (d & Hd & ->).
    destruct (IH Hs) as (ds & Hds & -> & Hlen & Hval).
    exists (d :: ds). split; [by constructor |]. split; [reflexivity |].
    split; [cbn [length String.length]; by rewrite Hlen |].
    intros acc. cbn [decimal]. rewrite (digit_char_code d Hd), <- Hval.
    reflexivity.
Qed.

(** What [int], [strip] and the separators make of a plain number. *)
Lemma plain_number_int (s : string) :
  plain_number s ->
  PyStr.contains "-" s = false
  /\ PyStr.contains "," s = false
  /\ PyStr.strip s = s
  /\ PyStr.int s
     = if (PyStr.int_max_str_digits <? String.length s)%nat
       then Raise (ValueError_digits (String.length s))
       else Ok (decimal 0 s).
Proof.
  intros [Hne Hall].
  destruct (plain_digits s Hall) as (ds & Hds & -> & Hlen & Hval).
  assert (Hne' : ds <> []) by (intros ->; by apply Hne).
  split; [| split; [| split]].
  - apply digits_contains; [| assumption]. intros d Hd. apply digit_char_plain, Hd.
  - apply digits_contains; [| assumption]. intros d Hd. apply digit_char_plain, Hd.
  - apply strip_with_all.
    apply digits_no_space; [| assumption]. intros d Hd. apply digit_char_plain, Hd.
  - rewrite (digits_string_int ds Hne' Hds), Hlen, Hval. reflexivity.
Qed.

Lemma short_number_numeral (s : string) :
  short_number s -> numeral s (decimal 0 s).
Proof.
  intros [Hplain Hshort].
  destruct (plain_number_int s Hplain) as (Hhyphen & _ & _ & Hint).
  split; [assumption |]. rewrite Hint.
  destruct (Nat.ltb_spec PyStr.int_max_str_digits (String.length s));
    [lia | reflexivity].
Qed.

Lemma plain_token_token (part : string) : plain_token part -> token part.
Proof.
  intros [Hk | sa sb Hpart Ha Hb].
  - apply (token_single part (decimal 0 (PyStr.strip part))).
    by apply short_number_numeral.
  - apply (token_range part sa sb (decimal 0 sa) (decimal 0 sb) Hpart);
      by apply short_number_numeral.
Qed.


Lemma of_N_no_space (n : N) (c : ascii) :
  PyStr.contains c (PyStr.of_N n) = true -> PyStr.is_space c = false.
Proof.
  destruct (of_N_digits n) as (ds & -> & _ & Hall & _).
  apply digits_no_space; [| assumption].
  intros d Hd. apply digit_char_plain, Hd.
Qed.

(** ["1-n"] names every page of a document of [n] pages. *)
Lemma parse_pages_full_range (n : N) :
  (String.length (PyStr.of_N n) <= PyStr.int_max_str_digits)%nat ->
  parse_pages (full_range_expression n) (Z.of_N n)
  = Ok (py_range 0 (Z.of_N n)).
Proof.
  intros Hlimit. destruct (of_N_numeral n Hlimit) as (Hnum & Hcomma & _).
  assert (Hstrip : PyStr.strip (full_range_expression n) = full_range_expression n).
  { apply strip_with_all. intros c. unfold full_range_expression.
    cbn [PyStr.contains].
    destruct (Ascii.eqb_spec "1" c) as [<- | _]; [reflexivity |].
    destruct (Ascii.eqb_spec "-" c) as [<- | _]; [reflexivity |].
    apply of_N_no_space. }
  rewrite parse_pages_one_part
    by (unfold full_range_expression; cbn [PyStr.contains Ascii.eqb]; exact Hcomma).
  unfold part_pages.
  rewrite (parse_part_range _ _ _ "1" (PyStr.of_N n) 1 (Z.of_N n));
    [| rewrite Hstrip; reflexivity | split; reflexivity | exact Hnum].
  cbn [bind]. f_equal. rewrite (left_id_L ∅ (∪)).
  replace (Z.max 0 (1 - 1)) with 0 by lia.
  replace (Z.min (Z.of_N n) (Z.of_N n)) with (Z.of_N n) by lia.
  apply py_sorted_list, py_range_ascending.
Qed.

End Numerals.

(** ** The tokens of a page selection *)

Section Tokens.


(** C6.  A well-formed expression, one whose parts are numbers [int]
    reads or ranges of two of them, parses, for every page count, to a
    list without repeats, in strictly ascending order, of indices in
    [0, total_pages): the pages its parts denote.  The list depends only
    on which parts occur, not on their order or on how often they occur;
    and for three pages or more ["3,1,2"] and ["1-3"] both give
    [0, 1, 2].  An expression is well formed when each part is a number in
    decimal digits, or two of them about a hyphen, of no more digits than
    [int] converts, 4300. *)
Theorem parse_pages_is_a_set :
  (forall expression total_pages,
      well_formed expression ->
      exists l,
        parse_pages expression total_pages = Ok l
        /\ StronglySorted Z.lt l
        /\ NoDup l
        /\ (forall x, x ∈ l -> 0 <= x < total_pages)
        /\ (forall x, x ∈ l <->
              exists part s, part ∈ PyStr.split "," expression
                             /\ part_pages total_pages part = Ok s /\ x ∈ s))
  /\ (forall e1 e2 total_pages,
        well_formed e1 ->
        (forall part, part ∈ PyStr.split "," e1 <-> part ∈ PyStr.split "," e2) ->
        parse_pages e1 total_pages = parse_pages e2 total_pages)
  /\ (forall total_pages,
        3 <= total_pages ->
        parse_pages "3,1,2" total_pages = Ok [0; 1; 2]
        /\ parse_pages "1-3" total_pages = Ok [0; 1; 2])
  /\ (forall expression,
        Forall plain_token (PyStr.split "," expression) ->
        well_formed expression).
Proof.
  split; [| split; [| split]].
  - intros expression total_pages Hwf.
    destruct (parse_pages_well_formed expression total_pages Hwf)
      as (l & Hl & Hs & Hnd & Hmem).
    exists l. repeat (split; [assumption |]). split; [| assumption].
    intros x Hx. apply Hmem in Hx as (part & s & _ & Hpart & Hx).
    eapply part_pages_bounds; eassumption.
  - intros e1 e2 total_pages Hwf1 Hsame.
    assert (Hwf2 : well_formed e2).
    { unfold well_formed in *. rewrite Forall_forall in *.
      intros part Hin. apply Hwf1, Hsame, Hin. }
    destruct (parse_pages_well_formed e1 total_pages Hwf1)
      as (l1 & Hl1 & Hs1 & _ & Hmem1).
    destruct (parse_pages_well_formed e2 total_pages Hwf2)
      as (l2 & Hl2 & Hs2 & _ & Hmem2).
    rewrite Hl1, Hl2. f_equal.
    apply ascending_unique; [assumption | assumption |].
    intros x. rewrite Hmem1, Hmem2.
    split; intros (part & s & Hin & Hrest); exists part, s;
      (split; [apply Hsame, Hin | exact Hrest]).
  - intros total_pages Hn. split.
    + unfold parse_pages.
      change (PyStr.split "," "3,1,2") with ["3"; "1"; "2"].
      cbn [for_each].
      rewrite (parse_part_single _ _ "3" 3) by (split; reflexivity). cbn [bind].
      replace (3 - 1 <? total_pages) with true by (symmetry; apply Z.ltb_lt; lia).
      cbn [Z.leb Z.sub Z.add Z.opp Z.pos_sub Pos.pred_double Z.compare andb].
      rewrite (parse_part_single _ _ "1" 1) by (split; reflexivity). cbn [bind].
      replace (1 - 1 <? total_pages) with true by (symmetry; apply Z.ltb_lt; lia).
      cbn [Z.leb Z.sub Z.add Z.opp Z.pos_sub Z.compare andb].
      rewrite (parse_part_single _ _ "2" 2) by (split; reflexivity). cbn [bind].
      replace (2 - 1 <? total_pages) with true by (symmetry; apply Z.ltb_lt; lia).
      cbn [Z.leb Z.sub Z.add Z.opp Z.pos_sub Z.compare andb].
      vm_compute. reflexivity.
    + rewrite parse_pages_one_part by reflexivity. unfold part_pages.
      rewrite (parse_part_range _ _ "1-3" "1" "3" 1 3)
        by (reflexivity || (split; reflexivity)).
      cbn [bind]. f_equal. rewrite (left_id_L ∅ (∪)).
      replace (Z.min total_pages 3) with 3 by lia.
      apply py_sorted_list. apply (py_range_ascending 0 3).
  - intros expression Hparts. unfold well_formed.
    eapply Forall_impl; [exact Hparts | exact plain_token_token].
Qed.

End Tokens.


(** C6, as the specification has it, fails: the range from page 1 to a
    page number of 4301 digits is a range of two numbers, and on a
    document of 3 pages it gives no list; [parse] raises. *)
Lemma long_range_end_raises :
  Sample.long_range = "1" ++ String "-" Sample.long_number
  /\ plain_number "1"
  /\ plain_number Sample.long_number
  /\ PyStr.split "," Sample.long_range = [Sample.long_range]
  /\ parse_pages Sample.long_range 3 = Raise (ValueError_digits 4301).
Proof.
  split; [reflexivity |].
  split; [split; [discriminate | reflexivity] |].
  split; [split; [discriminate | vm_compute; reflexivity] |].
  split; vm_compute; reflexivity.
Qed.

(** ** Extraction *)

Section Extraction.
Import ExtractSpec.

Lemma doc_getitem_in_document (doc : Document) (page_num : Z) :
  in_document doc page_num ->
  exists page, doc_getitem doc page_num = Ok page /\ page_at doc page_num page.
Proof.
  intros [Hlo Hhi]. unfold doc_getitem, page_at.
  replace (0 <=? page_num) with true by (symmetry; apply Z.leb_le; lia).
  replace (page_num <? doc_len doc) with true by (symmetry; apply Z.ltb_lt; lia).
  cbn [andb]. unfold doc_len in Hhi.
  destruct (doc_pages doc !! Z.to_nat page_num) as [page |] eqn:Hpage.
  - eauto.
  - apply lookup_ge_None in Hpage. lia.
Qed.

Lemma extract_text_loop (doc : Document) (pages : list Z) (texts : list string) :
  Forall (in_document doc) pages ->
  exists more,
    for_each (fun texts page_num =>
                let* page := doc_getitem doc page_num in
                Ok (texts ++ [get_text page])%list)
             texts pages
    = Ok (texts ++ more)%list
    /\ Forall2 (fun page_num text =>
                  exists page, page_at doc page_num page /\ text = get_text page)
               pages more.
Proof.
  intros Hall. revert texts.
  induction Hall as [| page_num pages Hin _ IH]; intros texts.
  - exists []. split; [| constructor]. cbn [for_each]. by rewrite app_nil_r.
  - destruct (doc_getitem_in_document doc page_num Hin) as (page & Hget & Hat).
    cbn [for_each]. rewrite Hget. cbn [bind].
    destruct (IH (texts ++ [get_text page])%list) as (more & Hloop & Hmore).
    exists (get_text page :: more). split.
    + rewrite Hloop, <- app_assoc. reflexivity.
    + constructor; [eauto | assumption].
Qed.

(** The inner loop of [extract_blocks] keeps the text blocks with some
    text, in their order. *)
Lemma collect_blocks (blocks : list Block) (page_text : list string)
      (page_blocks : list BlockOut) :
  fold_left collect_block blocks (page_text, page_blocks)
  = ((page_text ++ List.map out_text (List.map emitted (List.filter kept blocks)))%list,
     (page_blocks ++ List.map emitted (List.filter kept blocks))%list).
Proof.
  revert page_text page_blocks.
  induction blocks as [| block blocks IH]; intros page_text page_blocks.
  - cbn [fold_left List.filter List.map]. by rewrite !app_nil_r.
  - cbn [fold_left List.filter].
    assert (Hstep : collect_block (page_text, page_blocks) block
                    = if kept block
                      then ((page_text ++ [out_text (emitted block)])%list,
                            (page_blocks ++ [emitted block])%list)
                      else (page_text, page_blocks)).
    { unfold collect_block, kept, emitted.
      destruct (block_type block =? 0); cbn [andb]; [| reflexivity].
      destruct (String.eqb (PyStr.strip (block_text block)) EmptyString);
        reflexivity. }
    rewrite Hstep.
    destruct (kept block); rewrite IH; cbn [List.map];
      rewrite <- ?app_assoc; reflexivity.
Qed.

Lemma extract_blocks_loop (doc : Document) (pages : list Z)
      (all_text : list string) (pages_detail : list PageDetail) :
  Forall (in_document doc) pages ->
  exists more_text more_detail,
    for_each (fun '(all_text, pages_detail) page_num =>
                let* page := doc_getitem doc page_num in
                let blocks := get_text_blocks page in
                let '(page_text, page_blocks) :=
                  fold_left collect_block blocks ([], []) in
                Ok ((all_text ++ [PyStr.join newline page_text])%list,
                    (pages_detail ++ [ {| detail_page := page_num + 1;
                                          detail_blocks := page_blocks |} ])%list))
             (all_text, pages_detail) pages
    = Ok ((all_text ++ more_text)%list, (pages_detail ++ more_detail)%list)
    /\ Forall2 (fun page_num detail =>
                  exists page,
                    page_at doc page_num page
                    /\ detail = {| detail_page := page_num + 1;
                                   detail_blocks := kept_blocks page |})
               pages more_detail
    /\ Forall2 (fun page_num text =>
                  exists page,
                    page_at doc page_num page
                    /\ text = PyStr.join newline
                                (List.map out_text (kept_blocks page)))
               pages more_text.
Proof.
  intros Hall. revert all_text pages_detail.
  induction Hall as [| page_num pages Hin _ IH]; intros all_text pages_detail.
  - exists [], []. cbn [for_each]. rewrite !app_nil_r.
    split; [reflexivity |]. split; constructor.
  - destruct (doc_getitem_in_document doc page_num Hin) as (page & Hget & Hat).
    cbn [for_each]. rewrite Hget. cbn [bind]. rewrite collect_blocks.
    cbn [app]. fold (kept_blocks page).
    destruct (IH (all_text ++ [PyStr.join newline (List.map out_text (kept_blocks page))])%list
                 (pages_detail ++ [ {| detail_page := page_num + 1;
                                       detail_blocks := kept_blocks page |} ])%list)
      as (more_text & more_detail & Hloop & Hdetail & Htext).
    eexists (_ :: more_text), (_ :: more_detail). split; [| split].
    + cbn [bind]. etransitivity; [exact Hloop |].
      rewrite <- !app_assoc. reflexivity.
    + constructor; [eauto | assumption].
    + constructor; [eauto | assumption].
Qed.

(** Trimming twice is trimming once. *)
Lemma rstrip_with_idempotent (sp : ascii -> bool) (s : string) :
  PyStr.rstrip_with sp (PyStr.rstrip_with sp s) = PyStr.rstrip_with sp s.
Proof.
  induction s as [| c s IH]; [reflexivity |].
  cbn [PyStr.rstrip_with].
  destruct (PyStr.rstrip_with sp s) as [| c' s'] eqn:Hs.
  - destruct (sp c) eqn:Hc; [reflexivity |].
    cbn [PyStr.rstrip_with]. by rewrite Hc.
  - cbn [PyStr.rstrip_with] in *. by rewrite IH.
Qed.

Lemma lstrip_with_head_not_space (sp : ascii -> bool) (s : string) :
  match PyStr.lstrip_with sp s with
  | EmptyString => True
  | String c _ => sp c = false
  end.
Proof.
  induction s as [| c s IH]; [exact I |].
  cbn [PyStr.lstrip_with]. destruct (sp c) eqn:Hc; assumption.
Qed.

Lemma strip_idempotent (s : string) : PyStr.strip (PyStr.strip s) = PyStr.strip s.
Proof.
  unfold PyStr.strip, PyStr.strip_with.
  pose proof (lstrip_with_head_not_space PyStr.is_space s) as Hhead.
  destruct (PyStr.lstrip_with PyStr.is_space s) as [| c t]; [reflexivity |].
  assert (Hr : exists t', PyStr.rstrip_with PyStr.is_space (String c t) = String c t').
  { cbn [PyStr.rstrip_with].
    destruct (PyStr.rstrip_with PyStr.is_space t); [rewrite Hhead |]; eauto. }
  destruct Hr as [t' Hr].
  rewrite <- (rstrip_with_idempotent _ (String c t)) at 2.
  rewrite Hr. cbn [PyStr.lstrip_with]. rewrite Hhead. reflexivity.
Qed.

Lemma filter_sublist {A} (f : A -> bool) (l : list A) :
  sublist (List.filter f l) l.
Proof.
  induction l as [| x l IH]; cbn [List.filter]; [constructor |].
  destruct (f x); by constructor.
Qed.

Lemma extract_text_selected (doc : Document) (pages : list Z) :
  Forall (in_document doc) pages ->
  exists texts,
    extract_text doc pages
    = Ok {| result_text := PyStr.join blank_line texts;
            result_pages_detail := None |}
    /\ Forall2 (fun page_num text =>
                  exists page, page_at doc page_num page /\ text = get_text page)
               pages texts.
Proof.
  intros Hall. unfold extract_text.
  destruct (extract_text_loop doc pages [] Hall) as (texts & Hloop & Htexts).
  rewrite Hloop. cbn [bind app]. eauto.
Qed.

Lemma full_range_in_document (doc : Document) :
  Forall (in_document doc) (py_range 0 (doc_len doc)).
Proof.
  apply Forall_forall. intros x Hx. apply elem_of_py_range in Hx. exact Hx.
Qed.

(** Over the full range the texts are those of the pages, in order. *)
Lemma extract_text_all_pages (doc : Document) :
  extract_text doc (py_range 0 (doc_len doc))
  = Ok {| result_text := PyStr.join blank_line (List.map get_text (doc_pages doc));
          result_pages_detail := None |}.
Proof.
  destruct (extract_text_selected doc _ (full_range_in_document doc))
    as (texts & -> & Htexts).
  do 3 f_equal.
  apply list_eq. intros i.
  unfold py_range, doc_len in Htexts. rewrite Z.sub_0_r in Htexts.
  destruct (decide (i < length (doc_pages doc))%nat) as [Hi | Hi].
  - assert (Hseq : seqZ 0 (Z.of_nat (length (doc_pages doc))) !! i = Some (Z.of_nat i))
      by (rewrite lookup_seqZ; lia).
    destruct (Forall2_lookup_l _ _ _ _ _ Htexts Hseq) as (text & Htext & page & Hat & ->).
    unfold page_at in Hat. rewrite Nat2Z.id in Hat.
    rewrite Htext. symmetry.
    change (List.map get_text (doc_pages doc)) with (get_text <$> doc_pages doc).
    rewrite list_lookup_fmap, Hat. reflexivity.
  - apply Forall2_length in Htexts. rewrite length_seqZ, Nat2Z.id in Htexts.
    rewrite !(lookup_ge_None_2); [reflexivity | |].
    + rewrite length_map. lia.
    + lia.
Qed.

(** C8.  For every document and every selection of its pages, the blocks
    extractor answers with one detail entry per selected page, holding
    the blocks of that page that are of kind text (type 0) with a
    non-empty trimmed text, and no other: each in the place the engine
    gave it among the kept ones, with its trimmed text and its own four
    box values. *)
Theorem extract_blocks_keeps_text_blocks (doc : Document) (pages : list Z) :
  Forall (in_document doc) pages ->
  exists text details,
    extract_blocks doc pages
    = Ok {| result_text := text; result_pages_detail := Some details |}
    /\ Forall2
         (fun page_num detail =>
            exists page kept_list,
              page_at doc page_num page
              /\ detail_page detail = page_num + 1
              /\ sublist kept_list (get_text_blocks page)
              /\ detail_blocks detail = List.map emitted kept_list
              /\ (forall block, block ∈ kept_list <->
                                 block ∈ get_text_blocks page
                                 /\ block_type block = 0
                                 /\ PyStr.strip (block_text block) <> EmptyString)
              /\ Forall (fun out =>
                           out_text out <> EmptyString
                           /\ PyStr.strip (out_text out) <> EmptyString
                           /\ exists block,
                               block ∈ get_text_blocks page
                               /\ block_type block = 0
                               /\ out_text out = PyStr.strip (block_text block)
                               /\ bbox out = {| x0 := block_x0 block;
                                                y0 := block_y0 block;
                                                x1 := block_x1 block;
                                                y1 := block_y1 block |})
                        (detail_blocks detail))
         pages details.
Proof.
  intros Hall. unfold extract_blocks.
  destruct (extract_blocks_loop doc pages [] [] Hall)
    as (more_text & more_detail & Hloop & Hdetail & _).
  exists (PyStr.join blank_line more_text), more_detail. split.
  - match goal with
    | |- bind ?m _ = _ =>
        replace m with (Ok (more_text, more_detail)) by (symmetry; exact Hloop)
    end.
    reflexivity.
  - eapply Forall2_impl; [exact Hdetail |].
    intros page_num detail (page & Hat & ->).
    exists page, (List.filter kept (get_text_blocks page)).
    assert (Hkept : forall block,
               block ∈ List.filter kept (get_text_blocks page) <->
               block ∈ get_text_blocks page
               /\ block_type block = 0
               /\ PyStr.strip (block_text block) <> EmptyString).
    { intros block. rewrite !list_elem_of_In, List.filter_In. unfold kept.
      rewrite andb_true_iff, negb_true_iff, Z.eqb_eq, String.eqb_neq. tauto. }
    split; [assumption |]. split; [reflexivity |].
    split; [apply filter_sublist |]. split; [reflexivity |].
    split; [exact Hkept |].
    cbn [detail_blocks]. unfold kept_blocks.
    apply List.Forall_forall. intros out Hout.
    apply List.in_map_iff in Hout as (block & <- & Hin).
    apply list_elem_of_In, Hkept in Hin as (Hin & Htype & Htext).
    cbn [emitted out_text bbox]. rewrite strip_idempotent.
    split; [assumption |]. split; [assumption |].
    exists block. auto.
Qed.

End Extraction.

(** ** The handlers *)

Section ServiceFacts.

Variable fitz_open : string -> result Document.
Variable b64decode : string -> result string.
Variable round2 : float -> float.

Local Abbreviation get_pdf := (get_pdf_from_request b64decode).
Local Abbreviation run_extract := (extract fitz_open b64decode round2).
Local Abbreviation run_info := (info fitz_open b64decode round2).
Local Abbreviation opened := (extract_opened round2).
Local Abbreviation opened_info := (info_opened round2).

(** [extract], step by step: the file, the document, the rest. *)
Lemma extract_unfold (req : Request) (log : list event) :
  run_extract req log
  = match get_pdf req with
    | Raise e => (failure e, log)
    | Ok pdf_bytes =>
        if negb (truthy pdf_bytes)
        then ({| status := 400; body := MissingFileBody true |}, log)
        else match fitz_open (default EmptyString pdf_bytes) with
             | Raise e => (failure e, log)
             | Ok doc => opened req doc log
             end
    end.
Proof.
  unfold extract, try_except, extract_try, extract_opened,
    selected_pages, dispatched.
  unfold io_bind at 1. unfold io_lift at 1.
  destruct (get_pdf req) as [pdf_bytes | e]; [| reflexivity].
  destruct (negb (truthy pdf_bytes)); [reflexivity |].
  unfold open_document, close_document, io_bind, io_lift, io_ret, emit.
  destruct (fitz_open _) as [doc | e]; [| reflexivity].
  destruct (truthy (pages_param_of req)).
  - destruct (parse_pages _ _) as [pages | e]; [| reflexivity].
    destruct (is_native_pdf doc) as [[native_score pdf_type] | e]; [| reflexivity].
    destruct (String.eqb (output_format_of req) "blocks").
    + destruct (extract_blocks doc pages); [| reflexivity].
      rewrite <- app_assoc. reflexivity.
    + destruct (extract_text doc pages); [| reflexivity].
      rewrite <- app_assoc. reflexivity.
  - destruct (is_native_pdf doc) as [[native_score pdf_type] | e]; [| reflexivity].
    destruct (String.eqb (output_format_of req) "blocks").
    + destruct (extract_blocks doc _); [| reflexivity].
      rewrite <- app_assoc. reflexivity.
    + destruct (extract_text doc _); [| reflexivity].
      rewrite <- app_assoc. reflexivity.
Qed.

Lemma truthy_bytes (pdf_bytes : string) :
  pdf_bytes <> EmptyString -> negb (truthy (Some pdf_bytes)) = false.
Proof.
  intros Hne. cbn [truthy]. rewrite negb_involutive.
  by apply String.eqb_neq.
Qed.

Lemma extract_after_open (req : Request) (log : list event)
      (pdf_bytes : string) (doc : Document) :
  get_pdf req = Ok (Some pdf_bytes) ->
  pdf_bytes <> EmptyString ->
  fitz_open pdf_bytes = Ok doc ->
  run_extract req log = opened req doc log.
Proof.
  intros Hpdf Hne Hopen.
  rewrite extract_unfold, Hpdf, (truthy_bytes _ Hne).
  change (default EmptyString (Some pdf_bytes)) with pdf_bytes.
  by rewrite Hopen.
Qed.

(** [extract] either stops before any document is open, with a failure
    or with the answer to a request without a file, or opens one. *)
Lemma extract_cases (req : Request) (log : list event) :
  (exists e, run_extract req log = (failure e, log))
  \/ run_extract req log = ({| status := 400; body := MissingFileBody true |}, log)
  \/ exists pdf_bytes doc,
       get_pdf req = Ok (Some pdf_bytes)
       /\ pdf_bytes <> EmptyString
       /\ fitz_open pdf_bytes = Ok doc
       /\ run_extract req log = opened req doc log.
Proof.
  rewrite extract_unfold.
  destruct (get_pdf req) as [[pdf_bytes |] | e] eqn:Hpdf; [| by right; left | eauto].
  destruct (String.eqb_spec pdf_bytes EmptyString) as [-> | Hne];
    [by right; left |].
  rewrite (truthy_bytes _ Hne).
  change (default EmptyString (Some pdf_bytes)) with pdf_bytes.
  destruct (fitz_open pdf_bytes) as [doc | e] eqn:Hopen; [| eauto].
  right. right. exists pdf_bytes, doc. auto.
Qed.

Lemma info_unfold (req : Request) (log : list event) :
  run_info req log
  = match get_pdf req with
    | Raise e => (failure e, log)
    | Ok pdf_bytes =>
        if negb (truthy pdf_bytes)
        then ({| status := 400; body := MissingFileBody false |}, log)
        else match fitz_open (default EmptyString pdf_bytes) with
             | Raise e => (failure e, log)
             | Ok doc => opened_info doc log
             end
    end.
Proof.
  unfold info, try_except, info_try, info_opened.
  unfold io_bind at 1. unfold io_lift at 1.
  destruct (get_pdf req) as [pdf_bytes | e]; [| reflexivity].
  destruct (negb (truthy pdf_bytes)); [reflexivity |].
  unfold open_document, close_document, io_bind, io_lift, io_ret, emit.
  destruct (fitz_open _) as [doc | e]; [| reflexivity].
  destruct (is_native_pdf doc) as [[native_score pdf_type] | e]; [| reflexivity].
  rewrite <- app_assoc. reflexivity.
Qed.

Lemma info_cases (req : Request) (log : list event) :
  (exists e, run_info req log = (failure e, log))
  \/ run_info req log = ({| status := 400; body := MissingFileBody false |}, log)
  \/ exists pdf_bytes doc,
       get_pdf req = Ok (Some pdf_bytes)
       /\ pdf_bytes <> EmptyString
       /\ fitz_open pdf_bytes = Ok doc
       /\ run_info req log = opened_info doc log.
Proof.
  rewrite info_unfold.
  destruct (get_pdf req) as [[pdf_bytes |] | e] eqn:Hpdf; [| by right; left | eauto].
  destruct (String.eqb_spec pdf_bytes EmptyString) as [-> | Hne];
    [by right; left |].
  rewrite (truthy_bytes _ Hne).
  change (default EmptyString (Some pdf_bytes)) with pdf_bytes.
  destruct (fitz_open pdf_bytes) as [doc | e] eqn:Hopen; [| eauto].
  right. right. exists pdf_bytes, doc. auto.
Qed.

(** C9.  In every successful answer of [/extract] and of [/info] the flag
    [needs_ocr] is true exactly when the label [pdf_type] is "scanned",
    and that label is the one [is_native_pdf] gave for the opened
    document. *)
Theorem needs_ocr_iff_scanned (req : Request) (log : list event) :
  (forall text pages_count pages_extracted characters_count pdf_type
          native_score needs_ocr pages_detail,
      body (run_extract req log).1
      = ExtractBody text pages_count pages_extracted characters_count
                    pdf_type native_score needs_ocr pages_detail ->
      (needs_ocr = true <-> pdf_type = "scanned")
      /\ exists pdf_bytes doc score,
          fitz_open pdf_bytes = Ok doc /\ is_native_pdf doc = Ok (score, pdf_type))
  /\ (forall title author subject creator producer creation_date
             modification_date pages_count pages pdf_type native_score needs_ocr,
        body (run_info req log).1
        = InfoBody title author subject creator producer creation_date
                   modification_date pages_count pages pdf_type native_score
                   needs_ocr ->
        (needs_ocr = true <-> pdf_type = "scanned")
        /\ exists pdf_bytes doc score,
            fitz_open pdf_bytes = Ok doc /\ is_native_pdf doc = Ok (score, pdf_type)).
Proof.
  split.
  - intros text pages_count pages_extracted characters_count pdf_type
           native_score needs_ocr pages_detail.
    destruct (extract_cases req log)
      as [[e ->] | [-> | (pdf_bytes & doc & _ & _ & Hopen & ->)]];
      [discriminate | discriminate |].
    unfold extract_opened.
    destruct (selected_pages req (doc_len doc)); [| discriminate].
    destruct (is_native_pdf doc) as [[score label] |] eqn:Hlabel; [| discriminate].
    destruct (dispatched req doc a); [| discriminate].
    cbn [fst body]. intros [= _ _ _ _ <- _ <- _].
    split; [apply String.eqb_eq | eauto].
  - intros title author subject creator producer creation_date
           modification_date pages_count pages pdf_type native_score needs_ocr.
    destruct (info_cases req log)
      as [[e ->] | [-> | (pdf_bytes & doc & _ & _ & Hopen & ->)]];
      [discriminate | discriminate |].
    unfold info_opened.
    destruct (is_native_pdf doc) as [[score label] |] eqn:Hlabel; [| discriminate].
    cbn [fst body]. intros [= _ _ _ _ _ _ _ _ _ <- _ <-].
    split; [apply String.eqb_eq | eauto].
Qed.

(** C7.  In text mode the extractor returns the texts of the selected
    pages as the engine gives them, one segment for each selected page
    (empty ones too), in the order of the selection, joined by two
    newlines; over all the pages that is the texts of the document in
    page order.  And a request with no page selection is answered as the
    same request with the full range ["1-n"] written out, [n] being the
    number of pages, of no more digits than [int] converts. *)
Theorem text_extraction_round_trip :
  (forall doc pages,
      Forall (ExtractSpec.in_document doc) pages ->
      exists texts,
        extract_text doc pages
        = Ok {| result_text := PyStr.join blank_line texts;
                result_pages_detail := None |}
        /\ Forall2 (fun page_num text =>
                      exists page,
                        ExtractSpec.page_at doc page_num page
                        /\ text = get_text page)
                   pages texts)
  /\ (forall doc,
        extract_text doc (py_range 0 (doc_len doc))
        = Ok {| result_text :=
                  PyStr.join blank_line (List.map get_text (doc_pages doc));
                result_pages_detail := None |})
  /\ (forall r1 r2 log pdf_bytes doc,
        get_pdf r1 = Ok (Some pdf_bytes) ->
        get_pdf r2 = Ok (Some pdf_bytes) ->
        pdf_bytes <> EmptyString ->
        fitz_open pdf_bytes = Ok doc ->
        output_format_of r1 = output_format_of r2 ->
        truthy (pages_param_of r1) = false ->
        (String.length (PyStr.of_N (N.of_nat (length (doc_pages doc))))
         <= PyStr.int_max_str_digits)%nat ->
        pages_param_of r2
        = Some (full_range_expression (N.of_nat (length (doc_pages doc)))) ->
        run_extract r1 log = run_extract r2 log).
Proof.
  split; [exact extract_text_selected |]. split; [exact extract_text_all_pages |].
  intros r1 r2 log pdf_bytes doc Hpdf1 Hpdf2 Hne Hopen Hfmt Hnone Hlimit Hfull.
  rewrite (extract_after_open r1 log pdf_bytes doc Hpdf1 Hne Hopen).
  rewrite (extract_after_open r2 log pdf_bytes doc Hpdf2 Hne Hopen).
  unfold extract_opened, selected_pages, dispatched.
  rewrite Hnone, Hfull, Hfmt.
  change (truthy (Some (full_range_expression _))) with true. cbv iota.
  change (default EmptyString (Some ?x)) with x.
  unfold doc_len. rewrite <- nat_N_Z, (parse_pages_full_range _ Hlimit).
  reflexivity.
Qed.

(** *** Malformed page selections *)

Lemma malformed_raises (total_pages : Z) (pages : gset Z) (part : string) :
  malformed part -> exists e, parse_part total_pages pages part = Raise e.
Proof.
  intros (piece & Hin & e & Hpiece). unfold parse_part.
  destruct (PyStr.contains "-" (PyStr.strip part)) eqn:Hdash.
  - destruct (PyStr.split "-" (PyStr.strip part)) as [| a [| b [| c rest]]];
      cbn [unpack2 bind]; eauto.
    destruct (PyStr.int a) as [za | ea] eqn:Ha; cbn [bind]; eauto.
    destruct (PyStr.int b) as [zb | eb] eqn:Hb; cbn [bind]; eauto.
    exfalso. apply elem_of_cons in Hin as [-> | Hin]; [congruence |].
    apply list_elem_of_singleton in Hin as ->. congruence.
  - rewrite split_no_separator in Hin by assumption.
    apply list_elem_of_singleton in Hin as ->.
    rewrite Hpiece. cbn [bind]. eauto.
Qed.

Lemma for_each_raises {A S} (body : S -> A -> result S) (x : A) (xs : list A) :
  x ∈ xs -> (forall s, exists e, body s x = Raise e) ->
  forall s, exists e, for_each body s xs = Raise e.
Proof.
  intros Hin Hraise.
  induction xs as [| y xs IH]; intros s; [set_solver |].
  cbn [for_each].
  apply elem_of_cons in Hin as [<- | Hin].
  - destruct (Hraise s) as [e ->]. cbn [bind]. eauto.
  - destruct (body s y) as [s' | e]; cbn [bind]; eauto.
Qed.

Lemma parse_pages_malformed (expression : string) (total_pages : Z) :
  (exists part, part ∈ PyStr.split "," expression /\ malformed part) ->
  exists e, parse_pages expression total_pages = Raise e.
Proof.
  intros (part & Hin & Hbad). unfold parse_pages.
  destruct (for_each_raises (parse_part total_pages) part _ Hin
              (fun s => malformed_raises total_pages s part Hbad) ∅) as [e ->].
  cbn [bind]. eauto.
Qed.

(** C2, as the code has it.  When the page selection of a request to
    [/extract] has a malformed part, and the file of the request opens as
    a document, the parser raises after the document was opened, and the
    answer is the general failure: status 500 with the message of the
    exception. *)
Theorem malformed_selection_fails_after_open
        (req : Request) (log : list event) (pdf_bytes : string)
        (doc : Document) (expression : string) :
  get_pdf req = Ok (Some pdf_bytes) ->
  pdf_bytes <> EmptyString ->
  fitz_open pdf_bytes = Ok doc ->
  pages_param_of req = Some expression ->
  expression <> EmptyString ->
  (exists part, part ∈ PyStr.split "," expression /\ malformed part) ->
  exists e rest,
    parse_pages expression (doc_len doc) = Raise e
    /\ (run_extract req log).1 = {| status := 500; body := FailureBody e |}
    /\ (run_extract req log).2 = (log ++ DocOpened :: rest)%list.
Proof.
  intros Hpdf Hne Hopen Hpages Hexpr Hbad.
  destruct (parse_pages_malformed expression (doc_len doc) Hbad) as [e He].
  exists e, []. split; [assumption |].
  rewrite (extract_after_open req log pdf_bytes doc Hpdf Hne Hopen).
  unfold extract_opened, selected_pages. rewrite Hpages.
  assert (Htruthy : truthy (Some expression) = true).
  { cbn [truthy]. by apply negb_true_iff, String.eqb_neq. }
  rewrite Htruthy.
  change (default EmptyString (Some expression)) with expression.
  rewrite He. split; reflexivity.
Qed.

(** *** The log of a request *)

(** [extract] and [info] release the document they opened exactly when
    they answer 200. *)
Lemma extract_log (req : Request) (log : list event) :
  (run_extract req log).2 = log
  \/ ((run_extract req log).2 = (log ++ [DocOpened; DocClosed])%list
      /\ status (run_extract req log).1 = 200)
  \/ ((run_extract req log).2 = (log ++ [DocOpened])%list
      /\ status (run_extract req log).1 = 500).
Proof.
  destruct (extract_cases req log)
    as [[e ->] | [-> | (pdf_bytes & doc & _ & _ & _ & ->)]]; [by left | by left |].
  unfold extract_opened.
  destruct (selected_pages req (doc_len doc)); [| by right; right].
  destruct (is_native_pdf doc) as [[score label] |]; [| by right; right].
  destruct (dispatched req doc a); [by right; left | by right; right].
Qed.

Lemma info_log (req : Request) (log : list event) :
  (run_info req log).2 = log
  \/ ((run_info req log).2 = (log ++ [DocOpened; DocClosed])%list
      /\ status (run_info req log).1 = 200)
  \/ ((run_info req log).2 = (log ++ [DocOpened])%list
      /\ status (run_info req log).1 = 500).
Proof.
  destruct (info_cases req log)
    as [[e ->] | [-> | (pdf_bytes & doc & _ & _ & _ & ->)]]; [by left | by left |].
  unfold info_opened.
  destruct (is_native_pdf doc) as [[score label] |]; [by right; left | by right; right].
Qed.

End ServiceFacts.

(** C2, as the specification has it, fails: the request with the page
    selection ["abc"] is answered with status 500, after the document was
    opened. *)
Lemma malformed_selection_is_no_client_error :
  pages_param_of Sample.malformed_request = Some "abc"
  /\ malformed "abc"
  /\ extract (Sample.fitz_open Sample.one_page) Sample.b64decode Sample.round2
             Sample.malformed_request []
     = ({| status := 500; body := FailureBody (ValueError_int "abc") |}, [DocOpened])
  /\ ~ reported_as_client_error
        (extract (Sample.fitz_open Sample.one_page) Sample.b64decode Sample.round2
                 Sample.malformed_request []).
Proof.
  assert (Hrun : extract (Sample.fitz_open Sample.one_page) Sample.b64decode
                         Sample.round2 Sample.malformed_request []
                 = ({| status := 500; body := FailureBody (ValueError_int "abc") |},
                    [DocOpened]))
    by (vm_compute; reflexivity).
  split; [vm_compute; reflexivity |]. split; [| split; [exact Hrun |]].
  - exists "abc". split; [vm_compute; set_solver |].
    eexists. vm_compute. reflexivity.
  - rewrite Hrun. unfold reported_as_client_error. cbn [fst snd status].
    intros [_ Hnot]. apply Hnot. set_solver.
Qed.

(** C3 fails on [/extract]: for the request with the page selection ["abc"]
    the document is opened and the answer is produced without closing it. *)
Theorem extract_leaves_document_open :
  let outcome :=
    extract (Sample.fitz_open Sample.one_page) Sample.b64decode Sample.round2
            Sample.malformed_request [] in
  status outcome.1 = 500
  /\ outcome.2 = [DocOpened]
  /\ DocClosed ∉ outcome.2.
Proof.
  assert (Hrun : extract (Sample.fitz_open Sample.one_page) Sample.b64decode
                         Sample.round2 Sample.malformed_request []
                 = ({| status := 500; body := FailureBody (ValueError_int "abc") |},
                    [DocOpened]))
    by (vm_compute; reflexivity).
  cbv zeta. rewrite Hrun. cbn [fst snd status].
  split; [reflexivity |]. split; [reflexivity |].
  intros Hin. apply list_elem_of_singleton in Hin. discriminate.
Qed.

(** ** The theorems at sample inputs *)

Section Witnesses.

Local Abbreviation sample_extract doc :=
  (extract (Sample.fitz_open doc) Sample.b64decode Sample.round2).

Ltac page_texts_bounded :=
  repeat constructor; vm_compute; discriminate.

(** The scenario of the specification is "mixed", with the ratio 2/3 as
    score. *)
Lemma is_native_pdf_decision_table_witness :
  is_native_pdf Sample.three_pages = Ok (Spec.classify Sample.three_pages)
  /\ snd (Spec.classify Sample.three_pages) = "mixed".
Proof.
  split.
  - apply (is_native_pdf_decision_table Sample.three_pages).
    + vm_compute. discriminate.
    + page_texts_bounded.
  - vm_compute. reflexivity.
Defined.

Lemma native_needs_strictly_more_witness :
  is_native_pdf Sample.long_pages = Ok (Binary64.of_int 1, "native")
  /\ exists score label,
      is_native_pdf Sample.four_of_five = Ok (score, label)
      /\ label <> "native".
Proof.
  split.
  - apply (native_needs_strictly_more Sample.long_pages).
    + page_texts_bounded.
    + vm_compute. reflexivity.
    + repeat constructor; vm_compute; reflexivity.
  - apply (native_needs_strictly_more Sample.four_of_five).
    + page_texts_bounded.
    + vm_compute. reflexivity.
    + left. vm_compute. reflexivity.
Defined.


Lemma parse_pages_is_a_set_witness :
  parse_pages "1,2" 5 = parse_pages "2,1,2" 5
  /\ exists l, parse_pages "3,1,2" 3 = Ok l /\ StronglySorted Z.lt l.
Proof.
  destruct parse_pages_is_a_set as (Hsorted & Hsame & _).
  split.
  - apply Hsame.
    + unfold well_formed. change (PyStr.split "," "1,2") with ["1"; "2"].
      repeat constructor.
      * apply (token_single "1" 1). split; reflexivity.
      * apply (token_single "2" 2). split; reflexivity.
    + intros part. change (PyStr.split "," "1,2") with ["1"; "2"].
      change (PyStr.split "," "2,1,2") with ["2"; "1"; "2"].
      rewrite !elem_of_cons. tauto.
  - destruct (Hsorted "3,1,2" 3) as (l & Hl & Hs & _).
    + unfold well_formed. change (PyStr.split "," "3,1,2") with ["3"; "1"; "2"].
      repeat constructor.
      * apply (token_single "3" 3). split; reflexivity.
      * apply (token_single "1" 1). split; reflexivity.
      * apply (token_single "2" 2). split; reflexivity.
    + exists l. split; assumption.
Defined.

Lemma text_extraction_round_trip_witness :
  sample_extract Sample.one_page (Sample.upload ∅) []
  = sample_extract Sample.one_page (Sample.upload {[ "pages" := "1-1" ]}) [].
Proof.
  destruct (text_extraction_round_trip (Sample.fitz_open Sample.one_page)
              Sample.b64decode Sample.round2) as (_ & _ & Hsame).
  apply (Hsame _ _ [] "%PDF-1.4" Sample.one_page);
    solve [reflexivity | discriminate | apply Nat.leb_le; reflexivity].
Defined.

Lemma extract_blocks_keeps_text_blocks_witness :
  exists text details,
    extract_blocks (Sample.document [Sample.blocks_page]) [0]
    = Ok {| result_text := text; result_pages_detail := Some details |}
    /\ length details = 1%nat.
Proof.
  destruct (extract_blocks_keeps_text_blocks
              (Sample.document [Sample.blocks_page]) [0])
    as (text & details & Hrun & Hdetails).
  - repeat constructor; vm_compute; congruence.
  - exists text, details. split; [assumption |].
    apply Forall2_length in Hdetails. symmetry. exact Hdetails.
Defined.

Lemma needs_ocr_iff_scanned_witness :
  exists pdf_bytes doc score,
    Sample.fitz_open Sample.one_page pdf_bytes = Ok doc
    /\ is_native_pdf doc = Ok (score, "scanned").
Proof.
  destruct (needs_ocr_iff_scanned (Sample.fitz_open Sample.one_page)
              Sample.b64decode Sample.round2 (Sample.upload ∅) [])
    as [Hextract _].
  eapply Hextract.
  vm_compute. reflexivity.
Defined.

Lemma malformed_selection_fails_after_open_witness :
  exists e rest,
    parse_pages "abc" 1 = Raise e
    /\ (sample_extract Sample.one_page Sample.malformed_request []).1
       = {| status := 500; body := FailureBody e |}
    /\ (sample_extract Sample.one_page Sample.malformed_request []).2
       = DocOpened :: rest.
Proof.
  apply (malformed_selection_fails_after_open
           (Sample.fitz_open Sample.one_page) Sample.b64decode Sample.round2
           Sample.malformed_request [] "%PDF-1.4" Sample.one_page "abc");
    try solve [reflexivity | discriminate].
  exists "abc". split; [vm_compute; set_solver |].
  exists "abc". split; [vm_compute; set_solver |].
  eexists. vm_compute. reflexivity.
Defined.

End Witnesses.

(** * Further properties of the code *)

(** ** [parse_pages]: errors and edge cases *)

Section PageSelectionEdges.

(** Whether a part raises, and what, does not depend on the page count. *)
Lemma part_pages_raise_any (n m : Z) (part : string) (e : exn) :
  part_pages n part = Raise e -> part_pages m part = Raise e.
Proof.
  unfold part_pages, parse_part.
  destruct (PyStr.contains "-" (PyStr.strip part)).
  - destruct (unpack2 _) as [[start end_] | e']; cbn [bind]; [| exact id].
    destruct (PyStr.int start); cbn [bind]; [| exact id].
    destruct (PyStr.int end_); cbn [bind]; [discriminate | exact id].
  - destruct (PyStr.int _); cbn [bind]; [| exact id].
    destruct (_ && _); discriminate.
Qed.

Lemma part_pages_ok_any (n m : Z) (part : string) (s : gset Z) :
  part_pages n part = Ok s -> exists s', part_pages m part = Ok s'.
Proof.
  intros Hn. destruct (part_pages m part) as [s' | e] eqn:Hm; [eauto |].
  apply (part_pages_raise_any m n) in Hm. congruence.
Qed.

(** The loop raises what its first raising part raises. *)
Lemma for_each_first_error (n : Z) (parts : list string) (pages : gset Z) (err : exn) :
  for_each (parse_part n) pages parts = Raise err <->
  exists before part after,
    parts = (before ++ part :: after)%list
    /\ Forall (fun p => exists s, part_pages n p = Ok s) before
    /\ part_pages n part = Raise err.
Proof.
  revert pages. induction parts as [| p ps IH]; intros pages.
  - cbn [for_each]. split; [discriminate |].
    intros (before & part & after & Heq & _). by destruct before.
  - cbn [for_each]. rewrite parse_part_union. fold (part_pages n p).
    destruct (part_pages n p) as [s | e] eqn:Hp; cbn [bind].
    + rewrite IH. split.
      * intros (before & part & after & -> & Hok & Hraise).
        exists (p :: before), part, after.
        split; [reflexivity |]. split; [constructor; eauto | assumption].
      * intros (before & part & after & Heq & Hok & Hraise).
        destruct before as [| b before]; cbn [app] in Heq.
        -- injection Heq as -> ->. congruence.
        -- injection Heq as -> ->. apply Forall_cons in Hok as [_ Hok].
           exists before, part, after. auto.
    + split.
      * intros [= ->]. exists [], p, ps. split; [reflexivity |]. split; [constructor | assumption].
      * intros (before & part & after & Heq & Hok & Hraise).
        destruct before as [| b before]; cbn [app] in Heq.
        -- injection Heq as -> ->. congruence.
        -- injection Heq as -> ->. apply Forall_cons in Hok as [[s Hs] _]. congruence.
Qed.

Lemma parse_pages_raise_iff (expression : string) (n : Z) (err : exn) :
  parse_pages expression n = Raise err <->
  for_each (parse_part n) ∅ (PyStr.split "," expression) = Raise err.
Proof.
  unfold parse_pages. destruct (for_each _ _ _); cbn [bind]; split; congruence.
Qed.

(** X1.  [parse_pages] raises exactly when one of the comma-separated parts
    raises, and then with the exception of the first such part: the parts
    before it were read without error, the parts after it are not looked
    at. *)
Theorem parse_pages_first_error (expression : string) (n : Z) (err : exn) :
  parse_pages expression n = Raise err <->
  exists before part after,
    PyStr.split "," expression = (before ++ part :: after)%list
    /\ Forall (fun p => exists s, part_pages n p = Ok s) before
    /\ part_pages n part = Raise err.
Proof. rewrite parse_pages_raise_iff. apply for_each_first_error. Qed.

(** X2.  Whether a page selection is accepted does not depend on the
    document: [parse_pages] raises for one page count exactly when it raises
    for any other, with the same exception. *)
Theorem parse_pages_error_any_document (expression : string) (n m : Z) (err : exn) :
  parse_pages expression n = Raise err <-> parse_pages expression m = Raise err.
Proof.
  assert (Hany : forall a b,
             parse_pages expression a = Raise err -> parse_pages expression b = Raise err).
  { intros a b. rewrite !parse_pages_raise_iff, !for_each_first_error.
    intros (before & part & after & Heq & Hok & Hraise).
    exists before, part, after. split; [assumption |]. split.
    - eapply Forall_impl; [exact Hok |]. intros p [s Hs].
      apply (part_pages_ok_any a b p s Hs).
    - apply (part_pages_raise_any a b), Hraise. }
  split; apply Hany.
Qed.

Lemma blank_part_raises (n : Z) (part : string) :
  PyStr.strip part = EmptyString ->
  part_pages n part = Raise (ValueError_int EmptyString).
Proof. intros H. unfold part_pages, parse_part. rewrite H. reflexivity. Qed.

Lemma split_trailing_separator (c : ascii) (s : string) :
  exists first rest,
    PyStr.split c (s ++ String c EmptyString) = first :: rest
    /\ EmptyString ∈ rest.
Proof.
  induction s as [| a s (first & rest & IH & Hin)].
  - exists EmptyString, [EmptyString].
    change (EmptyString ++ String c EmptyString) with (String c EmptyString).
    cbn [PyStr.split]. rewrite Ascii.eqb_refl. split; [reflexivity | set_solver].
  - change (String a s ++ String c EmptyString)
      with (String a (s ++ String c EmptyString)).
    cbn [PyStr.split]. rewrite IH.
    destruct (Ascii.eqb a c).
    + exists EmptyString, (first :: rest). split; [reflexivity | set_solver].
    + exists (String a first), rest. split; [reflexivity | assumption].
Qed.

(** X3.  An expression with a blank part is rejected, with the [ValueError]
    of [int("")] when the parts before it are fine: so are the empty
    expression, an expression that is only white space, and every expression
    that ends in a comma. *)
Theorem blank_part_is_rejected (expression : string) (n : Z) :
  ((exists part, part ∈ PyStr.split "," expression
                 /\ PyStr.strip part = EmptyString) ->
   exists err, parse_pages expression n = Raise err)
  /\ (PyStr.contains "," expression = false ->
      PyStr.strip expression = EmptyString ->
      parse_pages expression n = Raise (ValueError_int EmptyString))
  /\ exists err, parse_pages (expression ++ ",") n = Raise err.
Proof.
  assert (Hblank : forall e,
             (exists part, part ∈ PyStr.split "," e /\ PyStr.strip part = EmptyString) ->
             exists err, parse_pages e n = Raise err).
  { intros e (part & Hin & Hstrip).
    apply list_elem_of_split in Hin as (before & after & Hsplit).
    destruct (for_each (parse_part n) ∅ before) as [pages | err] eqn:Hbefore.
    - exists (ValueError_int EmptyString). unfold parse_pages.
      rewrite Hsplit, for_each_app, Hbefore. cbn [bind for_each].
      rewrite parse_part_union. fold (part_pages n part).
      rewrite (blank_part_raises n part Hstrip). reflexivity.
    - exists err. unfold parse_pages.
      rewrite Hsplit, for_each_app, Hbefore. reflexivity. }
  split; [apply Hblank |]. split.
  - intros Hcomma Hstrip. rewrite parse_pages_one_part by assumption.
    rewrite (blank_part_raises n expression Hstrip). reflexivity.
  - apply Hblank.
    destruct (split_trailing_separator "," expression) as (first & rest & Hsplit & Hin).
    exists EmptyString. rewrite Hsplit. split; [set_solver | reflexivity].
Qed.

(** A range part, alone: the pages from [max(0, a - 1)] up to
    [min(n, b)], not included. *)
Lemma parse_pages_range_part (part sa sb : string) (a b n : Z) :
  PyStr.contains "," part = false ->
  PyStr.strip part = sa ++ String "-" sb ->
  numeral sa a -> numeral sb b ->
  parse_pages part n = Ok (py_range (Z.max 0 (a - 1)) (Z.min n b)).
Proof.
  intros Hcomma Hpart Ha Hb.
  rewrite parse_pages_one_part by assumption. unfold part_pages.
  rewrite (parse_part_range _ _ _ sa sb a b Hpart Ha Hb). cbn [bind].
  f_equal. rewrite (left_id_L ∅ (∪)).
  apply py_sorted_list, py_range_ascending.
Qed.

Lemma py_range_nil_iff (start stop : Z) :
  py_range start stop = [] <-> stop <= start.
Proof.
  unfold py_range. split.
  - intros Hnil. destruct (Z.le_gt_cases stop start) as [H | H]; [assumption |].
    rewrite seqZ_cons in Hnil by lia. discriminate.
  - intros H. apply seqZ_nil. lia.
Qed.

(** X4.  A range of two numbers that [int] reads (of 4300 digits at most)
    selects nothing, without any error, exactly when its end is not above
    its start once both are cut to the document: a reversed range such as
    ["5-2"], a range that starts after the last page, a range that ends at
    page 0.  And a range that starts at 0 starts at the first page, as if
    it started at 1. *)
Theorem range_edges (part sa sb : string) (a b n : Z) :
  PyStr.contains "," part = false ->
  PyStr.strip part = sa ++ String "-" sb ->
  numeral sa a -> numeral sb b ->
  (parse_pages part n = Ok [] <-> Z.min n b <= Z.max 0 (a - 1))
  /\ (b < a -> parse_pages part n = Ok [])
  /\ (a <= 1 -> parse_pages part n = Ok (py_range 0 (Z.min n b))).
Proof.
  intros Hcomma Hpart Ha Hb.
  rewrite (parse_pages_range_part part sa sb a b n Hcomma Hpart Ha Hb).
  split; [| split].
  - rewrite <- py_range_nil_iff. split; [by intros [= ->] | by intros ->].
  - intros Hlt. f_equal. apply py_range_nil_iff. lia.
  - intros Hle. by replace (Z.max 0 (a - 1)) with 0 by lia.
Qed.

Lemma for_each_pointwise {A S} (body : S -> A -> result S) (xs ys : list A) (s : S) :
  Forall2 (fun x y => forall s, body s x = body s y) xs ys ->
  for_each body s xs = for_each body s ys.
Proof.
  intros H. revert s. induction H as [| x y xs ys Hxy _ IH]; intros s; [reflexivity |].
  cbn [for_each]. rewrite Hxy. destruct (body s y); cbn [bind]; [apply IH | reflexivity].
Qed.

Lemma parse_part_strip (n : Z) (pages : gset Z) (part : string) :
  parse_part n pages part = parse_part n pages (PyStr.strip part).
Proof. unfold parse_part. by rewrite strip_idempotent. Qed.

Lemma parse_parts_stripped (n : Z) (parts : list string) (pages : gset Z) :
  for_each (parse_part n) pages parts
  = for_each (parse_part n) pages (List.map PyStr.strip parts).
Proof.
  apply for_each_pointwise.
  induction parts as [| part parts IH]; constructor; [| exact IH].
  intros s. apply parse_part_strip.
Qed.

(** X5.  White space around the parts does not count: two expressions whose
    parts are the same once trimmed parse alike, errors included. *)
Theorem parse_pages_ignores_surrounding_space (e1 e2 : string) (n : Z) :
  List.map PyStr.strip (PyStr.split "," e1)
  = List.map PyStr.strip (PyStr.split "," e2) ->
  parse_pages e1 n = parse_pages e2 n.
Proof.
  intros Hsame. unfold parse_pages.
  rewrite (parse_parts_stripped n (PyStr.split "," e1)).
  rewrite (parse_parts_stripped n (PyStr.split "," e2)).
  by rewrite Hsame.
Qed.

(** Whatever [parse_pages] returns is ascending and lies in the document. *)
Lemma parse_pages_ok_spec (expression : string) (n : Z) (l : list Z) :
  parse_pages expression n = Ok l ->
  StronglySorted Z.lt l /\ NoDup l /\ forall x, x ∈ l -> 0 <= x < n.
Proof.
  unfold parse_pages.
  destruct (for_each_parse_part n (PyStr.split "," expression) ∅)
    as [(e & -> & _) | (more & -> & Hmore & _)]; [discriminate |].
  cbn [bind]. intros [= <-].
  destruct (py_sorted_spec (∅ ∪ more)) as (Hs & Hnd & Hmem).
  split; [assumption |]. split; [assumption |].
  intros x Hx. apply Hmem in Hx.
  assert (Hin : x ∈ more) by set_solver.
  apply Hmore in Hin as (part & s & _ & Hpart & Hxs).
  eapply part_pages_bounds; eassumption.
Qed.

Lemma bounded_nodup_length (l : list Z) (n : Z) :
  0 <= n -> NoDup l -> (forall x, x ∈ l -> 0 <= x < n) ->
  Z.of_nat (length l) <= n.
Proof.
  intros Hn Hnd Hbound.
  assert (Hsub : l ⊆+ seqZ 0 n).
  { apply NoDup_submseteq; [assumption |].
    intros x Hx. apply elem_of_seqZ. specialize (Hbound x Hx). lia. }
  apply submseteq_length in Hsub. rewrite length_seqZ in Hsub. lia.
Qed.

End PageSelectionEdges.

(** ** [is_native_pdf]: range of the score, and what it depends on *)

Section ClassificationEdges.
Import Binary64 Binary64Facts.

#[local] Opaque nearest_units.

Lemma ratio_in_unit_interval (p n : Z) :
  0 <= p <= n -> 0 < n ->
  gt (Float false (nearest_units p n)) (of_int 1) = false
  /\ gt (of_int 0) (Float false (nearest_units p n)) = false.
Proof.
  intros Hp Hn.
  assert (Hone : of_int 1 = Float false (nearest_units 1 1)) by (vm_compute; reflexivity).
  assert (Hzero : of_int 0 = Float false (nearest_units 0 1)) by (vm_compute; reflexivity).
  rewrite Hone, Hzero, !gt_units. split; apply Z.ltb_ge; apply nearest_units_mono; lia.
Qed.

(** X6.  For every document whose page texts are Python strings,
    [is_native_pdf] returns, and does not raise: one of the four labels,
    with a score that is a float between 0.0 and 1.0, equal to 1.0 for
    "native" and to 0.0 for "scanned" and "empty". *)
Theorem is_native_pdf_score_range (doc : Document) :
  Forall (fun page => PyStr.len (get_text page) <= sys_maxsize) (doc_pages doc) ->
  exists score label,
    is_native_pdf doc = Ok (score, label)
    /\ (label = "empty" \/ label = "native" \/ label = "mixed" \/ label = "scanned")
    /\ gt score (of_int 1) = false
    /\ gt (of_int 0) score = false
    /\ (label = "native" -> score = of_int 1)
    /\ (label = "scanned" \/ label = "empty" -> score = of_int 0)
    /\ (label = "empty" <-> doc_pages doc = []).
Proof.
  intros Htexts.
  assert (Hone : gt (of_int 1) (of_int 1) = false /\ gt (of_int 0) (of_int 1) = false)
    by (split; vm_compute; reflexivity).
  assert (Hzero : gt (of_int 0) (of_int 1) = false /\ gt (of_int 0) (of_int 0) = false)
    by (split; vm_compute; reflexivity).
  destruct (Z.eq_dec (Spec.totalPages doc) 0) as [Hz | Hnz].
  - exists (of_int 0), "empty".
    assert (Hnil : doc_pages doc = []).
    { unfold Spec.totalPages, doc_len in Hz. destruct (doc_pages doc); [reflexivity |].
      cbn [length] in Hz. lia. }
    split; [unfold is_native_pdf, doc_len; rewrite Hnil; reflexivity |].
    split; [auto |]. split; [apply Hzero |]. split; [apply Hzero |].
    split; [discriminate |]. split; [reflexivity |]. by split.
  - assert (Hn : 0 < Spec.totalPages doc)
      by (unfold Spec.totalPages, doc_len in *; lia).
    assert (Hpages : doc_pages doc <> []).
    { intros Hnil. unfold Spec.totalPages, doc_len in Hn. rewrite Hnil in Hn.
      cbn [length] in Hn. lia. }
    rewrite (is_native_pdf_unfold doc Hn Htexts). cbv zeta.
    rewrite literal_one, literal_zero.
    destruct (ratio_in_unit_interval _ _ (pagesWithText_bounds doc) Hn) as [Hup Hlo].
    destruct (_ && _); [| destruct (_ || _)]; eexists _, _;
      (split; [reflexivity |]).
    + split; [auto |]. split; [apply Hone |]. split; [apply Hone |].
      split; [reflexivity |]. split; [intros [H | H]; discriminate |].
      split; [discriminate | contradiction].
    + split; [auto |]. split; [exact Hup |]. split; [exact Hlo |].
      split; [discriminate |]. split; [intros [H | H]; discriminate |].
      split; [discriminate | contradiction].
    + split; [auto |]. split; [apply Hzero |]. split; [apply Hzero |].
      split; [discriminate |]. split; [reflexivity |].
      split; [discriminate | contradiction].
Qed.

(** The three numbers [is_native_pdf] reads off a document. *)
Lemma counters_permutation (l1 l2 : list Z) :
  l1 ≡ₚ l2 ->
  length l1 = length l2
  /\ length (List.filter (fun z => 50 <? z) l1) = length (List.filter (fun z => 50 <? z) l2)
  /\ sum_list l1 = sum_list l2.
Proof.
  unfold sum_list.
  induction 1 as [| x l1 l2 _ (IH1 & IH2 & IH3) | x y l
                  | l1 l2 l3 _ (IHa1 & IHa2 & IHa3) _ (IHb1 & IHb2 & IHb3)];
    cbn [length List.filter fold_right].
  - auto.
  - destruct (50 <? x); cbn [length]; repeat split; lia.
  - destruct (50 <? x); destruct (50 <? y); cbn [length]; repeat split; lia.
  - repeat split; congruence.
Qed.

Lemma counters_by_length (pages : list Page) :
  length (List.filter Spec.hasText pages)
  = length (List.filter (fun z => 50 <? z) (List.map Spec.trimmedLength pages)).
Proof.
  induction pages as [| page pages IH]; [reflexivity |].
  cbn [List.filter List.map]. unfold Spec.hasText at 1.
  destruct (50 <? Spec.trimmedLength page); cbn [length]; lia.
Qed.

(** X7.  The classification reads only the lengths of the trimmed page
    texts, and not their order: two documents with the same trimmed
    lengths, in any order, get the same score and label (so reordering the
    pages, padding texts with white space, or changing blocks, images and
    metadata changes nothing). *)
Theorem is_native_pdf_by_trimmed_lengths (doc1 doc2 : Document) :
  List.map Spec.trimmedLength (doc_pages doc1)
  ≡ₚ List.map Spec.trimmedLength (doc_pages doc2) ->
  is_native_pdf doc1 = is_native_pdf doc2.
Proof.
  intros Hperm.
  destruct (counters_permutation _ _ Hperm) as (Hlen & Hcount & Hsum).
  rewrite !length_map in Hlen. rewrite <- !counters_by_length in Hcount.
  unfold is_native_pdf. rewrite !count_pages_spec.
  unfold doc_len. unfold sum_list in Hsum. rewrite Hlen, Hcount, Hsum. reflexivity.
Qed.

End ClassificationEdges.

(** ** The extractors: the text they build *)

Section ExtractionEdges.
Import ExtractSpec.

Lemma summaries_of_details (doc : Document) (pages : list Z)
      (details : list PageDetail) (texts : list string) :
  Forall2 (fun page_num detail =>
             exists page,
               page_at doc page_num page
               /\ detail = {| detail_page := page_num + 1;
                              detail_blocks := kept_blocks page |})
          pages details ->
  Forall2 (fun page_num text =>
             exists page,
               page_at doc page_num page
               /\ text = PyStr.join newline (List.map out_text (kept_blocks page)))
          pages texts ->
  texts = List.map detail_summary details
  /\ List.map detail_page details = List.map (fun page_num => page_num + 1) pages.
Proof.
  intros Hdetails. revert texts.
  induction Hdetails as [| page_num detail pages details (page & Hat & ->) _ IH];
    intros texts Htexts.
  - apply Forall2_nil_inv_l in Htexts as ->. by split.
  - apply Forall2_cons_inv_l in Htexts as (text & texts' & (page' & Hat' & ->) & Htexts & ->).
    unfold page_at in *. assert (page' = page) as -> by congruence.
    destruct (IH texts' Htexts) as [-> Hpages].
    cbn [List.map detail_page]. rewrite Hpages. by split.
Qed.

(** X8.  In blocks mode the text is a function of the detail list: the
    block texts of each entry joined by one newline, and these page
    summaries joined by two; there is one entry for each selected page, in
    the order of the selection, numbered with the page index plus one. *)
Theorem extract_blocks_text_of_details (doc : Document) (pages : list Z) :
  Forall (in_document doc) pages ->
  exists details,
    extract_blocks doc pages
    = Ok {| result_text := PyStr.join blank_line (List.map detail_summary details);
            result_pages_detail := Some details |}
    /\ List.map detail_page details = List.map (fun page_num => page_num + 1) pages.
Proof.
  intros Hall. unfold extract_blocks.
  destruct (extract_blocks_loop doc pages [] [] Hall)
    as (more_text & more_detail & Hloop & Hdetail & Htext).
  destruct (summaries_of_details doc pages more_detail more_text Hdetail Htext)
    as [-> Hpages].
  exists more_detail. split; [| exact Hpages].
  match goal with
  | |- bind ?m _ = _ =>
      replace m with (Ok (List.map detail_summary more_detail, more_detail))
        by (symmetry; exact Hloop)
  end.
  reflexivity.
Qed.

Lemma len_append (s1 s2 : string) :
  PyStr.len (s1 ++ s2) = PyStr.len s1 + PyStr.len s2.
Proof.
  unfold PyStr.len. induction s1 as [| c s1 IH]; [reflexivity |].
  change (String c s1 ++ s2) with (String c (s1 ++ s2)).
  cbn [String.length]. lia.
Qed.

(** The length of a joined string: the pieces, and a separator between
    each two of them. *)
Lemma len_join (sep : string) (xs : list string) :
  PyStr.len (PyStr.join sep xs)
  = sum_list (List.map PyStr.len xs)
    + PyStr.len sep * Z.max 0 (Z.of_nat (length xs) - 1).
Proof.
  unfold sum_list.
  induction xs as [| x xs IH].
  { cbn [PyStr.join List.map fold_right length].
    change (PyStr.len EmptyString) with 0. lia. }
  destruct xs as [| y ys].
  - cbn [PyStr.join List.map fold_right length].
    replace (Z.max 0 (Z.of_nat 1 - 1)) with 0 by lia. lia.
  - change (PyStr.join sep (x :: y :: ys)) with (x ++ sep ++ PyStr.join sep (y :: ys)).
    rewrite !len_append, IH. cbn [List.map fold_right length].
    replace (Z.max 0 (Z.of_nat (S (S (length ys))) - 1))
      with (Z.of_nat (length ys) + 1) by lia.
    replace (Z.max 0 (Z.of_nat (S (length ys)) - 1))
      with (Z.of_nat (length ys)) by lia.
    lia.
Qed.

(** X9.  The text of text mode has the length of the selected page texts
    plus two characters between each two of them: nothing is added before
    the first or after the last, and an empty selection gives the empty
    text. *)
Theorem extract_text_length (doc : Document) (pages : list Z) :
  Forall (in_document doc) pages ->
  exists texts result,
    extract_text doc pages = Ok result
    /\ Forall2 (fun page_num text =>
                  exists page, page_at doc page_num page /\ text = get_text page)
               pages texts
    /\ PyStr.len (result_text result)
       = sum_list (List.map PyStr.len texts)
         + 2 * Z.max 0 (Z.of_nat (length pages) - 1)
    /\ (pages = [] -> result_text result = EmptyString).
Proof.
  intros Hall.
  destruct (extract_text_selected doc pages Hall) as (texts & Hrun & Htexts).
  eexists texts, _. split; [exact Hrun |]. split; [exact Htexts |].
  cbn [result_text]. split.
  - rewrite len_join. rewrite (Forall2_length _ _ _ Htexts). reflexivity.
  - intros ->. apply Forall2_nil_inv_l in Htexts as ->. reflexivity.
Qed.

(** White space only is what trimming leaves nothing of. *)
Lemma rstrip_with_empty_iff (sp : ascii -> bool) (s : string) :
  PyStr.rstrip_with sp s = EmptyString <-> all_chars sp s = true.
Proof.
  induction s as [| c s IH]; [by split |].
  cbn [PyStr.rstrip_with all_chars].
  destruct (PyStr.rstrip_with sp s) as [| c' s'] eqn:Hs.
  - destruct (sp c); cbn [andb].
    + split; [intros _; by apply IH | reflexivity].
    + split; discriminate.
  - split; [discriminate |].
    intros H. apply andb_true_iff in H as [_ H]. apply IH in H. discriminate.
Qed.

Lemma lstrip_with_all_chars (sp : ascii -> bool) (s : string) :
  all_chars sp (PyStr.lstrip_with sp s) = all_chars sp s.
Proof.
  induction s as [| c s IH]; [reflexivity |].
  cbn [PyStr.lstrip_with]. destruct (sp c) eqn:Hc.
  - rewrite IH. cbn [all_chars]. by rewrite Hc.
  - reflexivity.
Qed.

Lemma strip_empty_iff (s : string) :
  PyStr.strip s = EmptyString <-> all_chars PyStr.is_space s = true.
Proof.
  unfold PyStr.strip, PyStr.strip_with.
  rewrite rstrip_with_empty_iff. by rewrite lstrip_with_all_chars.
Qed.

Lemma app_singleton_neq {A} (l : list A) (x : A) : (l ++ [x])%list <> l.
Proof.
  intros H. apply (f_equal length) in H. rewrite length_app in H.
  cbn [length] in H. lia.
Qed.

(** X10.  The block loop of [extract_blocks] leaves a block out exactly
    when it is not a text block (type 0) or its text is made of white space
    only (the empty text too); any other block adds its trimmed text and
    its box, at the end of what was collected. *)
Theorem collect_block_drops (page_text : list string) (page_blocks : list BlockOut)
        (block : Block) :
  (collect_block (page_text, page_blocks) block = (page_text, page_blocks) <->
   block_type block <> 0 \/ all_chars PyStr.is_space (block_text block) = true)
  /\ (block_type block = 0 ->
      all_chars PyStr.is_space (block_text block) = false ->
      collect_block (page_text, page_blocks) block
      = ((page_text ++ [PyStr.strip (block_text block)])%list,
         (page_blocks ++ [emitted block])%list)).
Proof.
  unfold collect_block.
  destruct (Z.eqb_spec (block_type block) 0) as [Htype | Htype].
  - destruct (String.eqb_spec (PyStr.strip (block_text block)) EmptyString)
      as [Hempty | Hfull]; cbn [negb].
    + apply strip_empty_iff in Hempty. split; [tauto | congruence].
    + assert (Hvis : all_chars PyStr.is_space (block_text block) = false).
      { destruct (all_chars _ _) eqn:H; [| reflexivity].
        apply strip_empty_iff in H. contradiction. }
      split; [| reflexivity].
      split.
      * intros [= H _]. by apply app_singleton_neq in H.
      * intros [H | H]; congruence.
  - split; [tauto | contradiction].
Qed.

End ExtractionEdges.

(** ** The handlers: files, answers and the document's life *)

Section HandlerEdges.

Variable fitz_open : string -> result Document.
Variable b64decode : string -> result string.
Variable round2 : float -> float.

Local Abbreviation the_pdf := (get_pdf_from_request b64decode).
Local Abbreviation do_extract := (extract fitz_open b64decode round2).
Local Abbreviation do_info := (info fitz_open b64decode round2).

(** X11.  A request that is not JSON and uploads no file, and a request
    that uploads an empty file, are answered with status 400 by both
    handlers, and no document is opened: the log is left as it was. *)
Theorem missing_file_is_400 (req : Request) (log : list event) :
  (req_files req !! "file" = Some EmptyString
   \/ (req_files req !! "file" = None /\ req_is_json req = false)) ->
  do_extract req log = ({| status := 400; body := MissingFileBody true |}, log)
  /\ do_info req log = ({| status := 400; body := MissingFileBody false |}, log).
Proof.
  intros Hreq.
  assert (Hpdf : the_pdf req = Ok None \/ the_pdf req = Ok (Some EmptyString)).
  { unfold get_pdf_from_request.
    destruct Hreq as [-> | [-> ->]]; [by right | by left]. }
  rewrite extract_unfold, info_unfold.
  destruct Hpdf as [-> | ->]; split; reflexivity.
Qed.

(** X12.  An uploaded file is taken as it is, whatever the JSON body holds.
    Without one, the ["file"] string of a JSON body is decoded from base64:
    whole when it has no comma, and otherwise only its second
    comma-separated piece, so that the header of a data URI
    ([data:application/pdf;base64,]) is dropped. *)
Theorem pdf_of_request (req : Request) :
  (forall content, req_files req !! "file" = Some content ->
                   the_pdf req = Ok (Some content))
  /\ (forall data,
        req_files req !! "file" = None -> req_is_json req = true ->
        req_json req !! "file" = Some data ->
        PyStr.contains "," data = false ->
        the_pdf req = let* pdf_bytes := b64decode data in Ok (Some pdf_bytes))
  /\ (forall header payload,
        req_files req !! "file" = None -> req_is_json req = true ->
        req_json req !! "file" = Some (header ++ String "," payload) ->
        PyStr.contains "," header = false ->
        PyStr.contains "," payload = false ->
        the_pdf req = let* pdf_bytes := b64decode payload in Ok (Some pdf_bytes)).
Proof.
  unfold get_pdf_from_request. split; [| split].
  - intros content ->. reflexivity.
  - intros data -> -> -> ->. reflexivity.
  - intros header payload -> -> -> Hheader Hpayload.
    rewrite contains_app. cbn [PyStr.contains]. rewrite Ascii.eqb_refl, orb_true_r.
    rewrite split_at_separator by assumption.
    rewrite split_no_separator by assumption.
    reflexivity.
Qed.

(** X13.  The classification in an answer is that of the whole document,
    whatever pages and format were asked for, and the same on both routes:
    two answers of [/extract], or one of [/extract] and one of [/info], for
    requests with the same file carry the same [pdf_type], [native_score],
    [needs_ocr] and [pages_count]. *)
Theorem classification_is_of_the_document
        (r1 r2 : Request) (log1 log2 : list event) (pdf_bytes : string) :
  the_pdf r1 = Ok (Some pdf_bytes) ->
  the_pdf r2 = Ok (Some pdf_bytes) ->
  forall text1 count1 extracted1 chars1 type1 score1 ocr1 detail1,
    body (do_extract r1 log1).1
    = ExtractBody text1 count1 extracted1 chars1 type1 score1 ocr1 detail1 ->
    (forall text2 count2 extracted2 chars2 type2 score2 ocr2 detail2,
        body (do_extract r2 log2).1
        = ExtractBody text2 count2 extracted2 chars2 type2 score2 ocr2 detail2 ->
        count1 = count2 /\ type1 = type2 /\ score1 = score2 /\ ocr1 = ocr2)
    /\ (forall title author subject creator producer created modified
               count2 pages type2 score2 ocr2,
          body (do_info r2 log2).1
          = InfoBody title author subject creator producer created modified
                     count2 pages type2 score2 ocr2 ->
          count1 = count2 /\ type1 = type2 /\ score1 = score2 /\ ocr1 = ocr2).
Proof.
  intros Hpdf1 Hpdf2 text1 count1 extracted1 chars1 type1 score1 ocr1 detail1.
  rewrite (extract_unfold _ _ _ r1), (extract_unfold _ _ _ r2), info_unfold.
  rewrite Hpdf1, Hpdf2.
  destruct (negb (truthy (Some pdf_bytes))); [discriminate |].
  destruct (fitz_open _) as [doc | e]; [| discriminate].
  unfold extract_opened, info_opened.
  destruct (selected_pages r1 (doc_len doc)); [| discriminate].
  destruct (is_native_pdf doc) as [[score label] | e]; [| discriminate].
  destruct (dispatched r1 doc a); [| discriminate].
  cbn [fst body]. intros [= _ <- _ _ <- <- <- _]. split.
  - intros text2 count2 extracted2 chars2 type2 score2 ocr2 detail2.
    destruct (selected_pages r2 (doc_len doc)); [| discriminate].
    destruct (dispatched r2 doc a1); [| discriminate].
    cbn [fst body]. intros [= _ <- _ _ <- <- <- _]. auto.
  - intros title author subject creator producer created modified
           count2 pages type2 score2 ocr2.
    cbn [fst body]. intros [= _ _ _ _ _ _ _ <- _ <- <- <-].
    rewrite length_imap. unfold doc_len. auto.
Qed.

Lemma selected_pages_in_document (req : Request) (doc : Document) (pages : list Z) :
  selected_pages req (doc_len doc) = Ok pages ->
  Forall (ExtractSpec.in_document doc) pages
  /\ 0 <= Z.of_nat (length pages) <= doc_len doc.
Proof.
  unfold selected_pages.
  assert (Hlen : 0 <= doc_len doc) by (unfold doc_len; lia).
  destruct (truthy (pages_param_of req)).
  - intros Hparse. apply parse_pages_ok_spec in Hparse as (_ & Hnd & Hbound).
    split; [by apply Forall_forall |].
    pose proof (bounded_nodup_length pages (doc_len doc) Hlen Hnd Hbound). lia.
  - intros [= <-]. split; [apply full_range_in_document |].
    unfold py_range. rewrite length_seqZ. lia.
Qed.

Lemma dispatched_ok (req : Request) (doc : Document) (pages : list Z) :
  Forall (ExtractSpec.in_document doc) pages ->
  exists result, dispatched req doc pages = Ok result.
Proof.
  intros Hall. unfold dispatched.
  destruct (String.eqb (output_format_of req) "blocks").
  - unfold extract_blocks.
    destruct (extract_blocks_loop doc pages [] [] Hall)
      as (more_text & more_detail & Hloop & _).
    match goal with
    | |- exists _, bind ?m _ = _ =>
        replace m with (Ok (more_text, more_detail)) by (symmetry; exact Hloop)
    end.
    cbn [bind]. eauto.
  - destruct (extract_text_selected doc pages Hall) as (texts & -> & _). eauto.
Qed.

Lemma is_native_pdf_returns (doc : Document) :
  Forall (fun page => PyStr.len (get_text page) <= sys_maxsize) (doc_pages doc) ->
  exists score label, is_native_pdf doc = Ok (score, label).
Proof.
  intros Htexts.
  destruct (Z.eq_dec (Spec.totalPages doc) 0) as [Hz | Hnz].
  - unfold is_native_pdf. unfold Spec.totalPages in Hz. rewrite Hz.
    destruct (fold_left _ _ _). cbn. eauto.
  - assert (Hn : 0 < Spec.totalPages doc)
      by (unfold Spec.totalPages, doc_len in *; lia).
    rewrite (is_native_pdf_unfold doc Hn Htexts). cbv zeta.
    destruct (_ && _); [| destruct (_ || _)]; eauto.
Qed.

(** X14.  In every answer of [/extract] that carries a text, the number of
    pages extracted is at least 0 and at most the number of pages of the
    document, the character count is the length of the text, and the
    document was opened and closed, in this order, and no other event
    happened. *)
Theorem extract_answer_counts (req : Request) (log : list event) :
  forall text pages_count pages_extracted characters_count pdf_type
         native_score needs_ocr pages_detail,
    body (do_extract req log).1
    = ExtractBody text pages_count pages_extracted characters_count
                  pdf_type native_score needs_ocr pages_detail ->
    0 <= pages_extracted <= pages_count
    /\ characters_count = PyStr.len text
    /\ status (do_extract req log).1 = 200
    /\ (do_extract req log).2 = (log ++ [DocOpened; DocClosed])%list.
Proof.
  intros text pages_count pages_extracted characters_count pdf_type
         native_score needs_ocr pages_detail.
  destruct (extract_cases fitz_open b64decode round2 req log)
    as [[e ->] | [-> | (pdf_bytes & doc & _ & _ & _ & ->)]];
    [discriminate | discriminate |].
  unfold extract_opened.
  destruct (selected_pages req (doc_len doc)) as [pages | e] eqn:Hsel; [| discriminate].
  destruct (is_native_pdf doc) as [[score label] | e]; [| discriminate].
  destruct (dispatched req doc pages); [| discriminate].
  cbn [fst snd body status]. intros [= <- <- <- <- _ _ _ _].
  destruct (selected_pages_in_document req doc pages Hsel) as [_ Hlen].
  auto.
Qed.

Lemma has_text_count (f : nat -> Page -> PageInfo) (pages : list Page) :
  (forall i page, info_has_text (f i page) = Spec.hasText page) ->
  length (List.filter info_has_text (imap f pages))
  = length (List.filter Spec.hasText pages).
Proof.
  revert f. induction pages as [| page pages IH]; intros f Hf; [reflexivity |].
  cbn [imap List.filter]. rewrite Hf.
  destruct (Spec.hasText page); cbn [length]; rewrite IH; try reflexivity;
    intros i p; apply Hf.
Qed.

(** X15.  [/info] lists every page of the document once, in page order and
    numbered from 1, with its size as the engine gives it, [has_text] true
    exactly for a trimmed text of more than 50 characters, and [has_images]
    true exactly when the page has an image; the pages with [has_text] are
    as many as the classifier counts. *)
Theorem info_lists_every_page (req : Request) (log : list event) :
  forall title author subject creator producer created modified
         pages_count pages pdf_type native_score needs_ocr,
    body (do_info req log).1
    = InfoBody title author subject creator producer created modified
               pages_count pages pdf_type native_score needs_ocr ->
    exists pdf_bytes doc,
      the_pdf req = Ok (Some pdf_bytes)
      /\ fitz_open pdf_bytes = Ok doc
      /\ pages_count = doc_len doc
      /\ length pages = length (doc_pages doc)
      /\ (forall i page,
            doc_pages doc !! i = Some page ->
            pages !! i
            = Some {| info_page := Z.of_nat i + 1;
                      info_width := rect_width page;
                      info_height := rect_height page;
                      info_has_text := Spec.hasText page;
                      info_has_images :=
                        match get_images page with [] => false | _ => true end |})
      /\ Z.of_nat (length (List.filter info_has_text pages)) = Spec.pagesWithText doc.
Proof.
  intros title author subject creator producer created modified
         pages_count pages pdf_type native_score needs_ocr.
  destruct (info_cases fitz_open b64decode round2 req log)
    as [[e ->] | [-> | (pdf_bytes & doc & Hpdf & _ & Hopen & ->)]];
    [discriminate | discriminate |].
  unfold info_opened.
  destruct (is_native_pdf doc) as [[score label] | e]; [| discriminate].
  cbn [fst body]. intros [= _ _ _ _ _ _ _ <- <- _ _ _].
  exists pdf_bytes, doc. split; [assumption |]. split; [assumption |].
  split; [rewrite length_imap; reflexivity |].
  split; [apply length_imap |]. split.
  - intros i page Hpage. rewrite list_lookup_imap, Hpage. cbn [fmap option_fmap option_map].
    unfold page_info, Spec.hasText, Spec.trimmedLength. do 2 f_equal.
    destruct (get_images page); reflexivity.
  - unfold Spec.pagesWithText. f_equal. apply has_text_count.
    intros i page. reflexivity.
Qed.

(** X16.  A document is never closed without having been opened, and never
    opened twice: a request adds to the log nothing (answers 400, and 500
    when the file does not decode or does not open), or one opening and
    one closing (answers 200), or one opening alone (answers 500 raised
    while the document was open).  When the engine refuses the file the
    answer is 500 with the engine's exception, and nothing is logged. *)
Theorem document_life (req : Request) (log : list event) :
  (forall outcome,
      outcome = do_extract req log \/ outcome = do_info req log ->
      (status outcome.1 = 200 <-> outcome.2 = (log ++ [DocOpened; DocClosed])%list)
      /\ (status outcome.1 = 400 -> outcome.2 = log)
      /\ (outcome.2 = log
          \/ outcome.2 = (log ++ [DocOpened; DocClosed])%list
          \/ (outcome.2 = (log ++ [DocOpened])%list /\ status outcome.1 = 500)))
  /\ (forall pdf_bytes e,
        the_pdf req = Ok (Some pdf_bytes) -> pdf_bytes <> EmptyString ->
        fitz_open pdf_bytes = Raise e ->
        do_extract req log = (failure e, log) /\ do_info req log = (failure e, log)).
Proof.
  assert (Hneq1 : forall l : list event, l <> (l ++ [DocOpened; DocClosed])%list).
  { intros l H. apply (f_equal length) in H. rewrite length_app in H.
    cbn [length] in H. lia. }
  assert (Hneq2 : forall l : list event,
             (l ++ [DocOpened])%list <> (l ++ [DocOpened; DocClosed])%list).
  { intros l H. apply (f_equal length) in H. rewrite !length_app in H.
    cbn [length] in H. lia. }
  split.
  - intros outcome [-> | ->].
    + destruct (extract_cases fitz_open b64decode round2 req log)
        as [[e ->] | [-> | (pdf_bytes & doc & _ & _ & _ & ->)]].
      * cbn. split; [split; [discriminate | intros H; by apply Hneq1 in H] |]. auto.
      * cbn. split; [split; [discriminate | intros H; by apply Hneq1 in H] |]. auto.
      * unfold extract_opened.
        destruct (selected_pages req (doc_len doc)) as [pages |];
          [destruct (is_native_pdf doc) as [[score label] |];
           [destruct (dispatched req doc pages) |] |]; cbn;
          (split; [split; [try discriminate; auto | intros H; try (by apply Hneq2 in H); reflexivity]
                  | split; [try discriminate | auto]]).
    + destruct (info_cases fitz_open b64decode round2 req log)
        as [[e ->] | [-> | (pdf_bytes & doc & _ & _ & _ & ->)]].
      * cbn. split; [split; [discriminate | intros H; by apply Hneq1 in H] |]. auto.
      * cbn. split; [split; [discriminate | intros H; by apply Hneq1 in H] |]. auto.
      * unfold info_opened.
        destruct (is_native_pdf doc) as [[score label] |]; cbn;
          (split; [split; [try discriminate; auto | intros H; try (by apply Hneq2 in H); reflexivity]
                  | split; [try discriminate | auto]]).
  - intros pdf_bytes e Hpdf Hne Hopen.
    rewrite extract_unfold, info_unfold, Hpdf, (truthy_bytes _ Hne).
    change (default EmptyString (Some pdf_bytes)) with pdf_bytes.
    rewrite Hopen. by split.
Qed.

(** C10.  A request whose format, as the handler resolves it, is anything
    but "blocks" is answered in text mode: once the file has opened, the
    answer is made of what [extract_text] returns for the selected pages,
    with [pages_detail] null, and the request fails only where the page
    selection, the classifier or [extract_text] raises, never on the
    format.  The format is the [format] field of the form unless it is
    absent or empty, then the [format] parameter of the query string
    unless it is absent or empty, then "text": so "xyz" is a format, other
    than "blocks", and an empty value is none: the next source decides,
    and blocks mode runs exactly when the first non-empty value is
    "blocks". *)
Theorem format_other_than_blocks_is_text :
  (forall req log pdf_bytes doc,
      the_pdf req = Ok (Some pdf_bytes) ->
      pdf_bytes <> EmptyString ->
      fitz_open pdf_bytes = Ok doc ->
      output_format_of req <> "blocks" ->
      do_extract req log
      = match (if truthy (pages_param_of req)
               then parse_pages (default EmptyString (pages_param_of req))
                                (doc_len doc)
               else Ok (py_range 0 (doc_len doc))) with
        | Raise e => (failure e, (log ++ [DocOpened])%list)
        | Ok pages =>
            match is_native_pdf doc with
            | Raise e => (failure e, (log ++ [DocOpened])%list)
            | Ok (native_score, pdf_type) =>
                match extract_text doc pages with
                | Raise e => (failure e, (log ++ [DocOpened])%list)
                | Ok result =>
                    ({| status := 200;
                        body := ExtractBody
                          (result_text result)
                          (doc_len doc)
                          (Z.of_nat (length pages))
                          (PyStr.len (result_text result))
                          pdf_type
                          (round2 native_score)
                          (String.eqb pdf_type "scanned")
                          None |},
                     (log ++ [DocOpened; DocClosed])%list)
                end
            end
        end)
  /\ (forall req log text pages_count pages_extracted characters_count
             pdf_type native_score needs_ocr pages_detail,
        output_format_of req <> "blocks" ->
        body (do_extract req log).1
        = ExtractBody text pages_count pages_extracted characters_count
                      pdf_type native_score needs_ocr pages_detail ->
        pages_detail = None)
  /\ (forall req,
        output_format_of req = "blocks"
        <-> req_form req !! "format" = Some "blocks"
            \/ ((req_form req !! "format" = None
                 \/ req_form req !! "format" = Some EmptyString)
                /\ req_args req !! "format" = Some "blocks"))
  /\ (forall req f,
        req_form req !! "format" = Some f -> f <> EmptyString ->
        output_format_of req = f)
  /\ (forall req,
        req_form req !! "format" = None
        \/ req_form req !! "format" = Some EmptyString ->
        req_args req !! "format" = None
        \/ req_args req !! "format" = Some EmptyString ->
        output_format_of req = "text").
Proof.
  split; [| split; [| split; [| split]]].
  - intros req log pdf_bytes doc Hpdf Hne Hopen Hfmt.
    rewrite (extract_after_open _ _ _ req log pdf_bytes doc Hpdf Hne Hopen).
    unfold extract_opened, selected_pages, dispatched.
    apply String.eqb_neq in Hfmt. rewrite Hfmt. reflexivity.
  - intros req log text pages_count pages_extracted characters_count
           pdf_type native_score needs_ocr pages_detail Hfmt.
    destruct (extract_cases fitz_open b64decode round2 req log)
      as [[e ->] | [-> | (pdf_bytes & doc & _ & _ & _ & ->)]];
      [discriminate | discriminate |].
    unfold extract_opened.
    destruct (selected_pages req (doc_len doc)); [| discriminate].
    destruct (is_native_pdf doc) as [[score label] |]; [| discriminate].
    destruct (dispatched req doc a); [| discriminate].
    apply String.eqb_neq in Hfmt. rewrite Hfmt.
    cbn [fst body]. by intros [= _ _ _ _ _ _ _ <-].
  - intros req. unfold output_format_of, py_or.
    destruct (req_form req !! "format") as [f |].
    + destruct (String.eqb_spec f EmptyString) as [-> | Hf].
      * destruct (req_args req !! "format") as [g |].
        -- destruct (String.eqb_spec g EmptyString) as [-> | Hg];
             cbn [default String.eqb]; [| destruct (String.eqb_spec g EmptyString)];
             naive_solver.
        -- cbn [default String.eqb]. naive_solver.
      * destruct (String.eqb_spec f EmptyString); [contradiction |].
        cbn [default]. naive_solver.
    + destruct (req_args req !! "format") as [g |].
      * destruct (String.eqb_spec g EmptyString) as [-> | Hg];
          cbn [default String.eqb]; [| destruct (String.eqb_spec g EmptyString)];
          naive_solver.
      * cbn [default String.eqb]. naive_solver.
  - intros req f Hform Hf. unfold output_format_of, py_or. rewrite Hform.
    destruct (String.eqb_spec f EmptyString); [contradiction |].
    destruct (String.eqb_spec f EmptyString); [contradiction | reflexivity].
  - intros req [Hform | Hform] [Hargs | Hargs];
      unfold output_format_of, py_or; rewrite Hform, Hargs; reflexivity.
Qed.

End HandlerEdges.

(** ** The further properties at sample inputs *)

Section FurtherWitnesses.

Local Abbreviation run_extract doc :=
  (extract (Sample.fitz_open doc) Sample.b64decode Sample.round2).
Local Abbreviation run_info doc :=
  (info (Sample.fitz_open doc) Sample.b64decode Sample.round2).

Ltac texts_bounded := repeat constructor; vm_compute; discriminate.

Lemma blank_part_is_rejected_witness :
  (exists err, parse_pages "1,,2" 5 = Raise err)
  /\ parse_pages "  " 5 = Raise (ValueError_int "").
Proof.
  destruct (blank_part_is_rejected "1,,2" 5) as (Hblank & _).
  destruct (blank_part_is_rejected "  " 5) as (_ & Hspace & _).
  split.
  - apply Hblank. exists "". split; [vm_compute; set_solver | reflexivity].
  - apply Hspace; reflexivity.
Defined.

Lemma range_edges_witness :
  parse_pages "5-2" 10 = Ok [] /\ parse_pages "0-2" 10 = Ok (py_range 0 2).
Proof.
  split.
  - apply (range_edges "5-2" "5" "2" 5 2 10);
      [reflexivity | reflexivity | split; reflexivity | split; reflexivity | lia].
  - apply (range_edges "0-2" "0" "2" 0 2 10);
      [reflexivity | reflexivity | split; reflexivity | split; reflexivity | lia].
Defined.

Lemma parse_pages_ignores_surrounding_space_witness :
  parse_pages " 1 ,2-3 " 5 = parse_pages "1,2-3" 5.
Proof. apply parse_pages_ignores_surrounding_space. reflexivity. Defined.

Lemma is_native_pdf_score_range_witness :
  exists score label,
    is_native_pdf Sample.three_pages = Ok (score, label)
    /\ Binary64.gt score (Binary64.of_int 1) = false.
Proof.
  destruct (is_native_pdf_score_range Sample.three_pages)
    as (score & label & Hrun & _ & Hup & _); [texts_bounded |].
  exists score, label. split; assumption.
Defined.

Lemma is_native_pdf_by_trimmed_lengths_witness :
  is_native_pdf Sample.three_pages
  = is_native_pdf (Sample.document
                     [Sample.text_page ""; Sample.text_page (Sample.letters 200);
                      Sample.text_page (" " ++ Sample.letters 200 ++ " ")]).
Proof.
  apply is_native_pdf_by_trimmed_lengths.
  change (List.map Spec.trimmedLength (doc_pages Sample.three_pages))
    with [200; 200; 0].
  match goal with
  | |- _ ≡ₚ ?l => let v := eval vm_compute in l in change l with v
  end.
  apply (Permutation_app_comm [200; 200] [0]).
Defined.

Lemma extract_blocks_text_of_details_witness :
  exists details,
    extract_blocks (Sample.document [Sample.blocks_page]) [0]
    = Ok {| result_text := PyStr.join blank_line (List.map detail_summary details);
            result_pages_detail := Some details |}.
Proof.
  destruct (extract_blocks_text_of_details
              (Sample.document [Sample.blocks_page]) [0]) as (details & Hrun & _).
  - repeat constructor; vm_compute; congruence.
  - exists details. exact Hrun.
Defined.

Lemma extract_text_length_witness :
  exists result,
    extract_text Sample.three_pages [0; 2] = Ok result
    /\ PyStr.len (result_text result) = 202.
Proof.
  destruct (extract_text_length Sample.three_pages [0; 2])
    as (texts & result & Hrun & _ & Hlen & _).
  - repeat constructor; vm_compute; congruence.
  - exists result. split; [assumption |].
    assert (Hres : extract_text Sample.three_pages [0; 2]
                   = Ok {| result_text := Sample.letters 200 ++ blank_line;
                           result_pages_detail := None |})
      by (vm_compute; reflexivity).
    rewrite Hrun in Hres. injection Hres as ->. vm_compute. reflexivity.
Defined.

Lemma collect_block_drops_witness :
  collect_block ([], []) (Sample.block 0 "   " 30) = ([], [])
  /\ collect_block ([], []) (Sample.block 0 " Title " 10)
     = (["Title"], [ExtractSpec.emitted (Sample.block 0 " Title " 10)]).
Proof.
  split.
  - apply (collect_block_drops [] [] (Sample.block 0 "   " 30)). right. reflexivity.
  - apply (collect_block_drops [] [] (Sample.block 0 " Title " 10)); reflexivity.
Defined.

Lemma missing_file_is_400_witness :
  status (run_extract Sample.one_page
            {| req_files := ∅; req_is_json := false; req_json := ∅;
               req_form := ∅; req_args := ∅ |} []).1 = 400.
Proof.
  destruct (missing_file_is_400 (Sample.fitz_open Sample.one_page)
              Sample.b64decode Sample.round2
              {| req_files := ∅; req_is_json := false; req_json := ∅;
                 req_form := ∅; req_args := ∅ |} []) as [-> _].
  - right. split; reflexivity.
  - reflexivity.
Defined.

Lemma pdf_of_request_witness :
  get_pdf_from_request (fun data => Ok data)
    {| req_files := ∅; req_is_json := true;
       req_json := {[ "file" := "data:application/pdf;base64,JVBERi0=" ]};
       req_form := ∅; req_args := ∅ |}
  = Ok (Some "JVBERi0=").
Proof.
  destruct (pdf_of_request (fun data => Ok data)
              {| req_files := ∅; req_is_json := true;
                 req_json := {[ "file" := "data:application/pdf;base64,JVBERi0=" ]};
                 req_form := ∅; req_args := ∅ |}) as (_ & _ & Huri).
  apply (Huri "data:application/pdf;base64" "JVBERi0="); reflexivity.
Defined.

Lemma classification_is_of_the_document_witness :
  let score := Sample.round2 (Binary64.Float false (Binary64.nearest_units 2 3)) in
  body (run_extract Sample.three_pages
          (Sample.upload {[ "pages" := "1"; "format" := "blocks" ]}) []).1
  = ExtractBody "" 3 1 0 "mixed" score false
                (Some [ {| detail_page := 1; detail_blocks := [] |} ])
  /\ body (run_info Sample.three_pages (Sample.upload ∅) []).1
     = InfoBody "" "" "" "" "" "" "" 3
                (imap page_info (doc_pages Sample.three_pages)) "mixed" score false
  /\ (3 = 3 /\ "mixed" = "mixed" /\ score = score /\ false = false).
Proof.
  cbv zeta.
  assert (Hextract :
            body (run_extract Sample.three_pages
                    (Sample.upload {[ "pages" := "1"; "format" := "blocks" ]}) []).1
            = ExtractBody "" 3 1 0 "mixed"
                (Sample.round2 (Binary64.Float false (Binary64.nearest_units 2 3)))
                false (Some [ {| detail_page := 1; detail_blocks := [] |} ]))
    by (vm_compute; reflexivity).
  assert (Hinfo :
            body (run_info Sample.three_pages (Sample.upload ∅) []).1
            = InfoBody "" "" "" "" "" "" "" 3
                (imap page_info (doc_pages Sample.three_pages)) "mixed"
                (Sample.round2 (Binary64.Float false (Binary64.nearest_units 2 3)))
                false)
    by (vm_compute; reflexivity).
  split; [exact Hextract |]. split; [exact Hinfo |].
  destruct (classification_is_of_the_document
              (Sample.fitz_open Sample.three_pages) Sample.b64decode Sample.round2
              (Sample.upload {[ "pages" := "1"; "format" := "blocks" ]})
              (Sample.upload ∅) [] [] "%PDF-1.4" eq_refl eq_refl
              _ _ _ _ _ _ _ _ Hextract) as [_ Hsame].
  exact (Hsame _ _ _ _ _ _ _ _ _ _ _ _ Hinfo).
Defined.

Lemma extract_answer_counts_witness :
  status (run_extract Sample.three_pages (Sample.upload {[ "pages" := "2-9" ]}) []).1
  = 200.
Proof.
  eapply (extract_answer_counts (Sample.fitz_open Sample.three_pages)
            Sample.b64decode Sample.round2
            (Sample.upload {[ "pages" := "2-9" ]}) []).
  vm_compute. reflexivity.
Defined.

Lemma info_lists_every_page_witness :
  exists pdf_bytes doc,
    Sample.fitz_open Sample.three_pages pdf_bytes = Ok doc
    /\ Spec.pagesWithText doc = 2.
Proof.
  edestruct (info_lists_every_page (Sample.fitz_open Sample.three_pages)
               Sample.b64decode Sample.round2 (Sample.upload ∅) [])
    as (pdf_bytes & doc & _ & Hopen & _ & _ & _ & Hcount).
  - vm_compute. reflexivity.
  - exists pdf_bytes, doc. split; [exact Hopen |].
    rewrite <- Hcount. vm_compute. reflexivity.
Defined.

Lemma document_life_witness :
  (run_info Sample.one_page (Sample.upload ∅) []).2 = [DocOpened; DocClosed].
Proof.
  destruct (document_life (Sample.fitz_open Sample.one_page)
              Sample.b64decode Sample.round2 (Sample.upload ∅) []) as [Hlife _].
  destruct (Hlife (run_info Sample.one_page (Sample.upload ∅) []))
    as [[H200 _] _]; [by right |].
  apply H200. vm_compute. reflexivity.
Defined.

Lemma format_other_than_blocks_is_text_witness :
  output_format_of (Sample.upload {[ "format" := "xyz" ]}) = "xyz"
  /\ is_native_pdf Sample.one_page = Ok (Binary64.of_int 0, "scanned")
  /\ run_extract Sample.one_page (Sample.upload {[ "format" := "xyz" ]}) []
     = ({| status := 200;
           body := ExtractBody "Hello" 1 1 5 "scanned" (Binary64.of_int 0)
                               true None |},
        [DocOpened; DocClosed]).
Proof.
  destruct (format_other_than_blocks_is_text
              (Sample.fitz_open Sample.one_page) Sample.b64decode Sample.round2)
    as (Hrun & _ & _ & Hformat & _).
  split; [apply (Hformat _ "xyz"); [reflexivity | discriminate] |].
  split; [vm_compute; reflexivity |].
  rewrite (Hrun (Sample.upload {[ "format" := "xyz" ]}) [] "%PDF-1.4"
             Sample.one_page);
    [vm_compute; reflexivity | reflexivity | discriminate | reflexivity
    | vm_compute; discriminate].
Defined.

End FurtherWitnesses.

(** C10, as the specification has it, fails: with an empty [format] field
    in the form, a format value other than "blocks", and [format=blocks]
    in the query string, the request is answered in blocks mode, with what
    [extract_blocks] returns and its page details. *)
Lemma empty_form_format_runs_blocks :
  req_form Sample.empty_format_request !! "format" = Some EmptyString
  /\ req_args Sample.empty_format_request !! "format" = Some "blocks"
  /\ match extract_blocks (Sample.document [Sample.blocks_page]) [0],
           is_native_pdf (Sample.document [Sample.blocks_page]) with
     | Ok result, Ok (score, label) =>
         result_pages_detail result <> None
         /\ extract (Sample.fitz_open (Sample.document [Sample.blocks_page]))
                    Sample.b64decode Sample.round2 Sample.empty_format_request []
            = ({| status := 200;
                  body := ExtractBody
                    (result_text result) 1 1 (PyStr.len (result_text result))
                    label (Sample.round2 score) (String.eqb label "scanned")
                    (result_pages_detail result) |},
               [DocOpened; DocClosed])
     | _, _ => False
     end.
Proof.
  split; [reflexivity |]. split; [reflexivity |].
  vm_compute. split; [discriminate | reflexivity].
Qed.

